(** * DatabaseMate: danger heuristic, confirmed execution, translator

    A shallow embedding of [database_manager.py] (the danger heuristic and
    [execute_query]) and of [llm_client.py] ([query_llm], [extract_sql] and
    the conversation history), with the properties of the specification
    stated and settled against it.

    Text.  A Python [str] is modelled as a list of 7-bit characters
    ([list ascii]); [upper], [lower] and [isspace] are Python's on that
    range.  Literals are written [py "..."]. *)

From Stdlib Require Import Ascii String ZArith Lia Bool DecimalString.
From stdpp Require Import base list strings gmap.

Set Default Proof Using "Type".

(* ===================================================================== *)
(** * Part I: definitions                                                 *)
(* ===================================================================== *)

(** ** Python text primitives *)

Module Text.

Definition str := list ascii.

Definition py (s : string) : str := list_ascii_of_string s.

(** [c.isspace()] below U+0080: TAB, LF, VT, FF, CR, the four separators
    FS, GS, RS, US and SPACE. *)
Definition isspace (c : ascii) : bool :=
  let n := nat_of_ascii c in
  ((9 <=? n) && (n <=? 13)) || ((28 <=? n) && (n <=? 32)).

Definition upper_char (c : ascii) : ascii :=
  let n := nat_of_ascii c in
  if (97 <=? n) && (n <=? 122) then ascii_of_nat (n - 32) else c.

Definition lower_char (c : ascii) : ascii :=
  let n := nat_of_ascii c in
  if (65 <=? n) && (n <=? 90) then ascii_of_nat (n + 32) else c.

Definition upper (s : str) : str := map upper_char s.
Definition lower (s : str) : str := map lower_char s.

Definition ascii_eqb (a b : ascii) : bool := Ascii.eqb a b.

Fixpoint str_eqb (a b : str) : bool :=
  match a, b with
  | [], [] => true
  | x :: a', y :: b' => ascii_eqb x y && str_eqb a' b'
  | _, _ => false
  end.

(** [s.lstrip()], [s.rstrip()], [s.strip()] *)
Fixpoint lstrip (s : str) : str :=
  match s with
  | [] => []
  | c :: t => if isspace c then lstrip t else s
  end.

Definition rstrip (s : str) : str := rev (lstrip (rev s)).

Definition strip (s : str) : str := rstrip (lstrip s).

(** [s.startswith(p)] *)
Fixpoint startswith (p s : str) : bool :=
  match p, s with
  | [], _ => true
  | x :: p', y :: s' => ascii_eqb x y && startswith p' s'
  | _ :: _, [] => false
  end.

(** [s.startswith((p1, ..., pn))] *)
Definition startswith_any (ps : list str) (s : str) : bool :=
  existsb (fun p => startswith p s) ps.

(** [p in s] *)
Fixpoint contains (p s : str) : bool :=
  startswith p s ||
  match s with
  | [] => false
  | _ :: t => contains p t
  end.

(** [find_from p s i]: the first position at which [p] occurs in [s],
    the first character of [s] having index [i]. *)
Fixpoint find_from (p s : str) (i : nat) : option nat :=
  if startswith p s then Some i
  else match s with
       | [] => None
       | _ :: t => find_from p t (S i)
       end.

(** A slice bound as Python reads it: a negative bound counts from the
    end, and bounds are clamped to [0, len]. *)
Definition clamp (len : nat) (i : Z) : nat :=
  if (i <? 0)%Z then Z.to_nat (Z.max 0 (Z.of_nat len + i))
  else Nat.min (Z.to_nat i) len.

(** [s.find(p, start)], with Python's [-1] for no occurrence. *)
Definition find (p s : str) (start : Z) : Z :=
  if (Z.of_nat (length s) <? start)%Z then (-1)%Z
  else
    let i := clamp (length s) start in
    match find_from p (drop i s) i with
    | Some k => Z.of_nat k
    | None => (-1)%Z
    end.

(** [s[i:j]] *)
Definition slice (s : str) (i j : Z) : str :=
  let a := clamp (length s) i in
  let b := clamp (length s) j in
  take (b - a) (drop a s).

(** [s.split(sep)] for a one-character separator: never empty. *)
Fixpoint split_on (sep : ascii) (s : str) : list str :=
  match s with
  | [] => [[]]
  | c :: t =>
      if ascii_eqb c sep then [] :: split_on sep t
      else match split_on sep t with
           | w :: ws => (c :: w) :: ws
           | [] => [[c]]
           end
  end.

(** [s.split()]: maximal runs of non-whitespace characters. *)
Fixpoint split (s : str) : list str :=
  match s with
  | [] => []
  | c :: t =>
      if isspace c then split t
      else match t with
           | [] => [[c]]
           | d :: _ =>
               if isspace d then [c] :: split t
               else match split t with
                    | w :: ws => (c :: w) :: ws
                    | [] => [[c]]
                    end
           end
  end.

(** [x in [a, b, ...]] on strings *)
Definition str_in (x : str) (l : list str) : bool :=
  existsb (str_eqb x) l.

End Text.

Import Text.

(** ** [database_manager.py] *)

Module DatabaseManager.

(** The rule table of [is_dangerous_query], in source order. *)
Definition dangerous_operations : list (str * str) :=
  [ (py "DROP TABLE",
     py "This will permanently delete a table and all its data");
    (py "DROP DATABASE",
     py "This will permanently delete the entire database");
    (py "DELETE FROM",
     py "This will delete records (potentially all records if no WHERE clause)");
    (py "TRUNCATE",
     py "This will delete all records from a table");
    (py "ALTER TABLE",
     py "This will modify table structure") ].

(** The [for operation, warning in ...] loop: [continue] moves on to the
    rest of the table, [return] stops. *)
Fixpoint scan_operations (ops : list (str * str)) (sql_upper : str)
  : bool * str :=
  match ops with
  | [] => (false, [])
  | (operation, warning) :: rest =>
      if contains operation sql_upper then
        if str_eqb operation (py "DELETE FROM")
           && contains (py "WHERE") sql_upper
        then scan_operations rest sql_upper
        else (true, warning)
      else scan_operations rest sql_upper
  end.

Definition is_dangerous_query (sql : str) : bool * str :=
  let sql_upper := strip (upper sql) in
  scan_operations dangerous_operations sql_upper.

(** *** The database engine

    [sqlite3] is outside the repository: [execute_query] is modelled over
    an interface of the calls it makes.  A [world] is the database file
    together with the state of the connection opened on it; every call
    may raise and may change the world. *)

Inductive exn :=
| SqliteError (msg : str)      (* [sqlite3.Error] and its subclasses *)
| OtherException (msg : str).  (* any other [Exception] *)

Inductive SqlValue :=
| SqlNull
| SqlInteger (z : Z)
| SqlReal (binary64 : Z)
| SqlText (s : str)
| SqlBlob (b : list ascii).

(** A fetched row, as the mapping [dict(row)] builds from it: column name
    to value, in column order. *)
Definition Row := list (str * SqlValue).

Record Engine := {
  world : Type;
  cursor : Type;
  connect : world -> (exn + unit) * world;
  execute : str -> option (list SqlValue) -> world -> (exn + cursor) * world;
  fetchall : cursor -> world -> (exn + list Row) * world;
  description : cursor -> option (list str);
  rowcount : cursor -> Z;
  lastrowid : cursor -> option Z;
  commit : world -> (exn + unit) * world;
  rollback : world -> (exn + unit) * world
}.

(** Computations that may raise, over a world [W]. *)
Definition M (W A : Type) : Type := W -> (exn + A) * W.

Definition ret {W A} (a : A) : M W A := fun w => (inr a, w).

Definition bind {W A B} (c : M W A) (k : A -> M W B) : M W B :=
  fun w =>
    match c w with
    | (inl e, w') => (inl e, w')
    | (inr a, w') => k a w'
    end.

Declare Scope exec_scope.
Delimit Scope exec_scope with exec.
Notation "x <- c ;; k" := (bind c (fun x => k))
  (at level 100, c at next level, right associativity) : exec_scope.
Notation "c ;;; k" := (bind c (fun _ => k))
  (at level 100, right associativity) : exec_scope.

(** *** Result dictionaries *)

Inductive Value :=
| VBool (b : bool)
| VNone
| VInt (z : Z)
| VStr (s : str)
| VColumns (names : list str)
| VData (rows : list Row).

Definition Result := gmap string Value.

Definition opt_int (o : option Z) : Value :=
  match o with
  | Some z => VInt z
  | None => VNone
  end.

Definition cancelled_result : Result :=
  {[ "success" := VBool false;
     "error" := VStr (py "Operation cancelled by user");
     "cancelled" := VBool true ]}.

Definition select_result (results : list Row) (columns : list str) : Result :=
  {[ "success" := VBool true;
     "data" := VData results;
     "columns" := VColumns columns;
     "row_count" := VInt (Z.of_nat (length results));
     "query_type" := VStr (py "SELECT") ]}.

Definition mutation_result (affected_rows : Z) (last_row_id : option Z)
    (sql_type : str) : Result :=
  {[ "success" := VBool true;
     "affected_rows" := VInt affected_rows;
     "last_row_id" := opt_int last_row_id;
     "query_type" := VStr sql_type;
     "message" := VStr (sql_type ++ py " operation completed successfully") ]}.

Definition unsupported_result (sql_type : str) : Result :=
  {[ "success" := VBool false;
     "error" := VStr (py "Unsupported query type: " ++ sql_type) ]}.

Definition database_error_result (msg sql : str) : Result :=
  {[ "success" := VBool false;
     "error" := VStr (py "Database error: " ++ msg);
     "sql" := VStr sql ]}.

Definition unexpected_error_result (msg sql : str) : Result :=
  {[ "success" := VBool false;
     "error" := VStr (py "Unexpected error: " ++ msg);
     "sql" := VStr sql ]}.

(** *** [execute_query] *)

Section Execute.

Variable E : Engine.

Local Open Scope exec_scope.

(** [with sqlite3.connect(self.db_path) as conn: body]: the connection's
    exit commits when the body completes (also by [return]) and rolls
    back when it raises. *)
Definition with_connection {A} (body : M (world E) A) : M (world E) A :=
  fun w =>
    match connect E w with
    | (inl e, w1) => (inl e, w1)
    | (inr _, w1) =>
        match body w1 with
        | (inr a, w2) =>
            match commit E w2 with
            | (inl e, w3) => (inl e, w3)
            | (inr _, w3) => (inr a, w3)
            end
        | (inl e, w2) =>
            match rollback E w2 with
            | (inl e', w3) => (inl e', w3)
            | (inr _, w3) => (inl e, w3)
            end
        end
    end.

(** [if params: cursor.execute(sql, params) else: cursor.execute(sql)] *)
Definition cursor_execute (sql : str) (params : option (list SqlValue))
  : M (world E) (cursor E) :=
  match params with
  | Some (_ :: _) => execute E sql params
  | _ => execute E sql None
  end.

(** [sql.strip().upper().split()[0]] *)
Definition sql_type_of (sql : str) : exn + str :=
  match split (upper (strip sql)) with
  | t :: _ => inr t
  | [] => inl (OtherException (py "list index out of range"))
  end.

Definition lift {A} (r : exn + A) : M (world E) A :=
  fun w => (r, w).

(** [[d[0] for d in cursor.description] if cursor.description else []] *)
Definition columns_of (cur : cursor E) : list str :=
  match description E cur with
  | Some (n :: ns) => n :: ns
  | _ => []
  end.

(** The statements under [with ... as conn:]. *)
Definition run_statement (sql : str) (params : option (list SqlValue))
  : M (world E) Result :=
  cur <- cursor_execute sql params ;;
  sql_type <- lift (sql_type_of sql) ;;
  if str_in sql_type [py "SELECT"] then
    results <- fetchall E cur ;;
    let columns := columns_of cur in
    ret (select_result results columns)
  else if str_in sql_type [py "INSERT"; py "UPDATE"; py "DELETE";
                           py "CREATE"; py "DROP"; py "ALTER"] then
    let affected_rows := rowcount E cur in
    let last_row_id := lastrowid E cur in
    commit E ;;;
    ret (mutation_result affected_rows last_row_id sql_type)
  else
    ret (unsupported_result sql_type).

(** The body of the [try]. [answer] is the line the operator types at
    the prompt; it is read only when the verdict is dangerous. *)
Definition try_body (sql : str) (params : option (list SqlValue))
    (answer : str) : M (world E) Result :=
  let '(is_dangerous, warning) := is_dangerous_query sql in
  if is_dangerous then
    let response := lower answer in
    if negb (str_in response [py "yes"; py "y"]) then
      ret cancelled_result
    else with_connection (run_statement sql params)
  else with_connection (run_statement sql params).

(** [try: ... except sqlite3.Error ... except Exception ...] *)
Definition execute_query (sql : str) (params : option (list SqlValue))
    (answer : str) (w : world E) : Result * world E :=
  match try_body sql params answer w with
  | (inr result, w') => (result, w')
  | (inl (SqliteError msg), w') => (database_error_result msg sql, w')
  | (inl (OtherException msg), w') => (unexpected_error_result msg sql, w')
  end.

End Execute.

(** *** A recording engine

    A test double: its world is the log of the calls made so far, and
    [script] says how each statement is answered. *)

Inductive Event :=
| EvConnect
| EvExecute (sql : str) (params : option (list SqlValue))
| EvFetchall
| EvCommit
| EvRollback.

Record Reply := {
  reply_description : option (list str);
  reply_rows : list Row;
  reply_rowcount : Z;
  reply_lastrowid : option Z
}.

Definition recorder (script : str -> exn + Reply) : Engine := {|
  world := list Event;
  cursor := Reply;
  connect := fun w => (inr tt, w ++ [EvConnect]);
  execute := fun sql params w => (script sql, w ++ [EvExecute sql params]);
  fetchall := fun cur w => (inr (reply_rows cur), w ++ [EvFetchall]);
  description := reply_description;
  rowcount := reply_rowcount;
  lastrowid := reply_lastrowid;
  commit := fun w => (inr tt, w ++ [EvCommit]);
  rollback := fun w => (inr tt, w ++ [EvRollback])
|}.

Definition no_rows : Reply :=
  {| reply_description := None; reply_rows := [];
     reply_rowcount := (-1)%Z; reply_lastrowid := None |}.

(** The script that accepts every statement and yields no row. *)
Definition accept_all : str -> exn + Reply := fun _ => inr no_rows.

(** The script of an engine whose only table is empty: a count over it
    yields one row with one column, holding 0. *)
Definition count_of_empty : str -> exn + Reply := fun _ =>
  inr {| reply_description := Some [py "COUNT( * )"];
         reply_rows := [[(py "COUNT( * )", SqlInteger 0)]];
         reply_rowcount := (-1)%Z; reply_lastrowid := None |}.

(** The script of an engine that rejects every statement. *)
Definition reject_all (msg : str) : str -> exn + Reply := fun _ =>
  inl (SqliteError msg).

End DatabaseManager.

Import DatabaseManager.

(** ** [llm_client.py] *)

Module LLMClient.

(** A turn of the conversation: [{"role": ..., "content": ...}]. *)
Record Message := { role : str; content : str }.

(** The fields of an [LLMClient] object (the console apart). *)
Record Client := {
  base_url : str;
  model : str;
  system_prompt : str;
  conversation_history : list Message
}.

Definition set_history (c : Client) (h : list Message) : Client :=
  {| base_url := base_url c; model := model c;
     system_prompt := system_prompt c; conversation_history := h |}.

(** The call [requests.post(url, json={...}, timeout=30)]. *)
Record ChatRequest := {
  req_url : str;
  req_model : str;
  req_messages : list Message;
  req_stream : bool;
  req_timeout : Z
}.

(** What the call gives back.  [reply_content] is
    [response.json()["message"]["content"]], or [None] when decoding the
    body or one of the two lookups raises.  The content, when there is one,
    is taken to be a text: a body whose content is a JSON null, a number or
    a list has no counterpart here, and nothing below speaks of one. *)
Inductive HttpOutcome :=
| Responded (status_code : Z) (reply_content : option str)
| TimedOut                      (* [requests.exceptions.Timeout] *)
| Raised (msg : str).           (* any other exception of the call *)

Definition Network := ChatRequest -> HttpOutcome.

(** [l[-6:]] *)
Definition last6 {A} (l : list A) : list A := drop (length l - 6) l.

(** The [messages] list [query_llm] builds. *)
Definition build_messages (c : Client) (user_message : str)
    (include_context : bool) : list Message :=
  let messages := [] in
  let messages :=
    if include_context then
      (messages ++ [{| role := py "system"; content := system_prompt c |}])
        ++ last6 (conversation_history c)
    else messages in
  messages ++ [{| role := py "user"; content := user_message |}].

Definition chat_request (c : Client) (user_message : str)
    (include_context : bool) : ChatRequest :=
  {| req_url := base_url c ++ py "/api/chat";
     req_model := model c;
     req_messages := build_messages c user_message include_context;
     req_stream := false;
     req_timeout := 30 |}.

Definition query_llm (net : Network) (c : Client) (user_message : str)
    (include_context : bool) : option str * Client :=
  match net (chat_request c user_message include_context) with
  | Responded status_code reply =>
      if (status_code =? 200)%Z then
        match reply with
        | Some ai_response =>
            let h := conversation_history c
                       ++ [{| role := py "user"; content := user_message |}] in
            let h := h ++ [{| role := py "assistant"; content := ai_response |}] in
            (Some ai_response, set_history c h)
        | None => (None, c)
        end
      else (None, c)
  | TimedOut => (None, c)
  | Raised _ => (None, c)
  end.

Definition sql_keywords : list str :=
  [py "SELECT"; py "INSERT"; py "UPDATE"; py "DELETE";
   py "CREATE"; py "DROP"; py "ALTER"].

(** The [for line in lines] loop of [extract_sql]. *)
Fixpoint first_sql_line (lines : list str) : option str :=
  match lines with
  | [] => None
  | line :: rest =>
      let line := strip line in
      if startswith_any sql_keywords (upper line) then Some line
      else first_sql_line rest
  end.

Definition newline : ascii := "010"%char.

(** [extract_sql] from the line scan on. *)
Definition scan_lines (ai_response : str) : str :=
  let lines := split_on newline ai_response in
  match first_sql_line lines with
  | Some line => line
  | None => strip ai_response
  end.

Definition fence : str := py "```".
Definition sql_fence : str := py "```sql".

Definition extract_sql (ai_response : str) : str :=
  if contains sql_fence ai_response then
    let start := (find sql_fence ai_response 0 + 6)%Z in
    let end_ := find fence ai_response start in
    if negb (end_ =? -1)%Z then strip (slice ai_response start end_)
    else scan_lines ai_response
  else scan_lines ai_response.

(** The outcome of [natural_language_to_sql]. *)
Inductive Translation :=
| TranslationFailed (error : str)
| Translated (sql explanation original_query : str).

(** The f-string that wraps the user's text. *)
Definition enhanced_prompt (prefix suffix user_input : str) : str :=
  prefix ++ user_input ++ suffix.

(** [natural_language_to_sql]; [prefix] and [suffix] are the fixed text of
    the prompt around the user's input. *)
Definition natural_language_to_sql (prefix suffix : str) (net : Network)
    (c : Client) (user_input : str) : Translation * Client :=
  let '(ai_response, c') :=
    query_llm net c (enhanced_prompt prefix suffix user_input) true in
  match ai_response with
  | Some (ch :: r) =>
      (Translated (extract_sql (ch :: r)) (ch :: r) user_input, c')
  | _ => (TranslationFailed (py "Failed to get response from AI"), c')
  end.

Definition add_table_context (c : Client) (table_info : str) : Client :=
  let context_msg := py "Database schema information:" ++ [newline] ++ table_info in
  set_history c
    (conversation_history c
       ++ [{| role := py "system"; content := context_msg |}]).

Definition clear_history (c : Client) : Client := set_history c [].

(** The calls that touch a client during a session. *)
Inductive Call :=
| CallQuery (net : Network) (user_message : str) (include_context : bool)
| CallTranslate (prefix suffix : str) (net : Network) (user_input : str)
| CallAddTableContext (table_info : str)
| CallClearHistory.

Definition after (c : Client) (call : Call) : Client :=
  match call with
  | CallQuery net user_message include_context =>
      snd (query_llm net c user_message include_context)
  | CallTranslate prefix suffix net user_input =>
      snd (natural_language_to_sql prefix suffix net c user_input)
  | CallAddTableContext table_info => add_table_context c table_info
  | CallClearHistory => clear_history c
  end.

Definition session (c : Client) (calls : list Call) : Client :=
  fold_left after calls c.

End LLMClient.

Import LLMClient.

(** ** Vocabulary of the specification *)

Module Vocabulary.

(** [p] occurs in [s]. *)
Definition occurs (p s : str) : Prop :=
  exists a b, s = a ++ p ++ b.



(** [l.join(parts)] for a one-character [sep]. *)
Fixpoint join (sep : ascii) (parts : list str) : str :=
  match parts with
  | [] => []
  | [w] => w
  | w :: ws => w ++ sep :: join sep ws
  end.




(** The statement is not stopped at the confirmation prompt: the verdict
    is not dangerous, or the operator answers yes. *)
Definition proceeds (sql answer : str) : bool :=
  negb (fst (is_dangerous_query sql))
  || str_in (lower answer) [py "yes"; py "y"].

(** The kinds [execute_query] knows how to report. *)
Definition mutation_kinds : list str :=
  [py "INSERT"; py "UPDATE"; py "DELETE"; py "CREATE"; py "DROP"; py "ALTER"].

Definition supported_kinds : list str := py "SELECT" :: mutation_kinds.

(** The first whitespace-delimited token of [s]. *)
Fixpoint token (s : str) : str :=
  match s with
  | [] => []
  | c :: t => if isspace c then [] else c :: token t
  end.

Definition first_token (s : str) : str := token (lstrip s).

(** The engine raises [e] while [execute_query] runs [sql]: at [connect],
    at [execute], at the [fetchall] of a SELECT, at the [commit] of a
    mutation, at the commit that ends the [with] block, or at the rollback
    that ends it after a failure.  The last argument is the world the
    failure leaves, after that rollback where there is one. *)
Inductive engine_fails (E : Engine) (sql : str)
    (params : option (list SqlValue)) (w : world E)
  : exn -> world E -> Prop :=
| fails_connect e w1 :
    connect E w = (inl e, w1) ->
    engine_fails E sql params w e w1
| fails_execute w1 e w2 w3 :
    connect E w = (inr tt, w1) ->
    cursor_execute E sql params w1 = (inl e, w2) ->
    rollback E w2 = (inr tt, w3) ->
    engine_fails E sql params w e w3
| fails_fetchall w1 cur w2 e w3 w4 :
    connect E w = (inr tt, w1) ->
    cursor_execute E sql params w1 = (inr cur, w2) ->
    sql_type_of sql = inr (py "SELECT") ->
    fetchall E cur w2 = (inl e, w3) ->
    rollback E w3 = (inr tt, w4) ->
    engine_fails E sql params w e w4
| fails_commit w1 cur w2 t e w3 w4 :
    connect E w = (inr tt, w1) ->
    cursor_execute E sql params w1 = (inr cur, w2) ->
    sql_type_of sql = inr t ->
    str_in t mutation_kinds = true ->
    commit E w2 = (inl e, w3) ->
    rollback E w3 = (inr tt, w4) ->
    engine_fails E sql params w e w4
| fails_exit_commit w1 result w2 e w3 :
    connect E w = (inr tt, w1) ->
    run_statement E sql params w1 = (inr result, w2) ->
    commit E w2 = (inl e, w3) ->
    engine_fails E sql params w e w3
| fails_exit_rollback w1 e0 w2 e w3 :
    connect E w = (inr tt, w1) ->
    run_statement E sql params w1 = (inl e0, w2) ->
    rollback E w2 = (inl e, w3) ->
    engine_fails E sql params w e w3.




(** The line, blanks around it apart, starts with one of the SQL keywords
    in some letter case. *)
Definition keyword_line (line : str) : Prop :=
  exists k m rest,
    In k sql_keywords /\ strip line = m ++ rest /\ upper m = k.

(** [s] neither starts nor ends with a blank. *)
Definition trimmed (s : str) : Prop :=
  (forall c t, s = c :: t -> isspace c = false)
  /\ (forall t c, s = t ++ [c] -> isspace c = false).

(** The turns [query_llm] builds. *)
Definition system_turn (c : Client) : Message :=
  {| role := py "system"; content := system_prompt c |}.

Definition user_turn (user_message : str) : Message :=
  {| role := py "user"; content := user_message |}.

Definition assistant_turn (ai_response : str) : Message :=
  {| role := py "assistant"; content := ai_response |}.

(** A client in mid-session, with eight stored turns. *)
Definition demo_client : Client :=
  {| base_url := py "http://localhost:11434";
     model := py "qwen2.5-coder:7b";
     system_prompt := py "You are DatabaseMate AI";
     conversation_history :=
       [ user_turn (py "q1"); assistant_turn (py "a1");
         user_turn (py "q2"); assistant_turn (py "a2");
         user_turn (py "q3"); assistant_turn (py "a3");
         user_turn (py "q4"); assistant_turn (py "a4") ] |}.

(** Networks with a fixed behaviour. *)
Definition answers (status : Z) (reply : option str) : Network :=
  fun _ => Responded status reply.

Definition times_out : Network := fun _ => TimedOut.

End Vocabulary.

Import Vocabulary.

(** ** [display_results] *)

Module Display.

(** [str(n)] for an integer. *)
Definition decimal (z : Z) : str :=
  list_ascii_of_string (NilZero.string_of_int (Z.to_int z)).

(** The truth value of a stored value, as [if] and [not] read it. *)
Definition truthy (v : Value) : bool :=
  match v with
  | VBool b => b
  | VNone => false
  | VInt z => negb (z =? 0)%Z
  | VStr [] => false
  | VStr (_ :: _) => true
  | VColumns [] => false
  | VColumns (_ :: _) => true
  | VData [] => false
  | VData (_ :: _) => true
  end.

(** [f"{v}"] for a scalar; how a list prints is not modelled. *)
Definition format (v : Value) : option str :=
  match v with
  | VBool true => Some (py "True")
  | VBool false => Some (py "False")
  | VNone => Some (py "None")
  | VInt z => Some (decimal z)
  | VStr s => Some s
  | VColumns _ => None
  | VData _ => None
  end.

(** [v == 0] *)
Definition is_zero (v : Value) : bool :=
  match v with
  | VInt z => (z =? 0)%Z
  | VBool b => negb b
  | _ => false
  end.

(** [v == text] *)
Definition is_text (text : str) (v : Value) : bool :=
  match v with
  | VStr s => str_eqb s text
  | _ => false
  end.

(** [row[col]] on the dictionary of a row. *)
Fixpoint row_get (col : str) (row : Row) : option SqlValue :=
  match row with
  | [] => None
  | (name, v) :: rest => if str_eqb name col then Some v else row_get col rest
  end.

(** What [display_results] hands to the console, without its decoration;
    a cell of the table is the value [str] is applied to. *)
Inductive Shown :=
| CancelledNotice
| ErrorPanel (text : str)
| NoResultsNotice
| ResultsTable (row_count : str) (columns : list str)
    (cells : list (list SqlValue))
| SuccessPanel (text : str).

Inductive Outcome :=
| Printed (shown : Shown)
| KeyError (key : str)
| Unmodelled.   (* a list where the code formats or a scalar where it loops *)

(** [[str(row[col]) for col in columns]], up to the first missing key. *)
Fixpoint row_cells (columns : list str) (row : Row) : str + list SqlValue :=
  match columns with
  | [] => inr []
  | col :: rest =>
      match row_get col row with
      | None => inl col
      | Some v =>
          match row_cells rest row with
          | inl missing => inl missing
          | inr cells => inr (v :: cells)
          end
      end
  end.

Fixpoint table_cells (columns : list str) (rows : list Row)
  : str + list (list SqlValue) :=
  match rows with
  | [] => inr []
  | row :: rest =>
      match row_cells columns row with
      | inl missing => inl missing
      | inr cells =>
          match table_cells columns rest with
          | inl missing => inl missing
          | inr table => inr (cells :: table)
          end
      end
  end.

(** The branch of a failed result that is not a cancellation. *)
Definition error_panel (result : Result) : Outcome :=
  match result !! "error" with
  | None => KeyError (py "error")
  | Some e =>
      match format e, format (default (VStr (py "N/A")) (result !! "sql")) with
      | Some error, Some sql =>
          Printed (ErrorPanel (py "Error: " ++ error ++ [newline]
                               ++ py "SQL: " ++ sql))
      | _, _ => Unmodelled
      end
  end.

(** The branch of a SELECT. *)
Definition results_table (result : Result) : Outcome :=
  match result !! "row_count" with
  | None => KeyError (py "row_count")
  | Some n =>
      if is_zero n then Printed NoResultsNotice
      else
        match format n with
        | None => Unmodelled
        | Some row_count =>
            match result !! "columns" with
            | None => KeyError (py "columns")
            | Some (VColumns columns) =>
                match result !! "data" with
                | None => KeyError (py "data")
                | Some (VData rows) =>
                    match table_cells columns rows with
                    | inl missing => KeyError missing
                    | inr cells =>
                        Printed (ResultsTable row_count columns cells)
                    end
                | Some _ => Unmodelled
                end
            | Some _ => Unmodelled
            end
        end
  end.

(** One line of [details], when the key is there. *)
Definition detail (label : str) (result : Result) (key : string)
  : option (list str) :=
  match result !! key with
  | None => Some []
  | Some v =>
      match format v with
      | Some text => Some [label ++ text]
      | None => None
      end
  end.

(** The branch of the other successes. *)
Definition success_panel (result : Result) : Outcome :=
  match default (VStr (py "Operation completed")) (result !! "message"),
        detail (py "Affected rows: ") result "affected_rows",
        detail (py "Last inserted ID: ") result "last_row_id" with
  | VStr message, Some affected, Some last =>
      let details := affected ++ last in
      match details with
      | [] => Printed (SuccessPanel message)
      | _ :: _ =>
          Printed (SuccessPanel (message ++ [newline] ++ join newline details))
      end
  | _, _, _ => Unmodelled
  end.

Definition display_results (result : Result) : Outcome :=
  match result !! "success" with
  | None => KeyError (py "success")
  | Some success =>
      if negb (truthy success) then
        if truthy (default VNone (result !! "cancelled"))
        then Printed CancelledNotice
        else error_panel result
      else if is_text (py "SELECT") (default VNone (result !! "query_type"))
      then results_table result
      else success_panel result
  end.

(** The row holds a value for every one of the columns. *)
Definition carries (cols : list str) (row : Row) : Prop :=
  Forall (fun col => row_get col row <> None) cols.

(** The cells of a table whose rows all carry the columns. *)
Definition cells_of (cols : list str) (rows : list Row)
  : list (list SqlValue) :=
  map (fun row => map (fun col => default SqlNull (row_get col row)) cols) rows.

End Display.

Import Display.

(** ** [main.py] *)

Module MainProgram.

Section Program.

Variable E : Engine.

(** [get_schema_info] (lines 254-294 of [database_manager.py]) is not
    unfolded: it runs its catalog queries on the world and always comes
    back with a text, its own handler turning every exception into one. *)
Variable get_schema_info : world E -> str * world E.

(** The fixed text [natural_language_to_sql] puts around the user's words. *)
Variables prefix suffix : str.

(** The fields of a [DatabaseMateAI] object (the console apart). *)
Record App := {
  db : world E;
  llm : Client;
  session_queries : list str
}.

Definition count_statement (table : str) : str :=
  py "SELECT COUNT(" ++ py "*) as count FROM " ++ table.

Definition today_statement : str :=
  py "SELECT COUNT(" ++
  py "*) as count FROM orders WHERE date(order_date) = date('now')".

(** [result["data"][0]["count"]]; [None] when one of the three lookups
    raises. *)
Definition read_count (result : Result) : option SqlValue :=
  match result !! "data" with
  | Some (VData (row :: _)) => row_get (py "count") row
  | _ => None
  end.

(** One [execute_query] of [display_stats] with the reading of its count:
    [None] when the reading raises, [Some None] when the query did not
    succeed. *)
Definition count_query (sql : str) (answer : str) (w : world E)
  : option (option SqlValue) * world E :=
  let '(result, w') := execute_query E sql None answer w in
  match result !! "success" with
  | None => (None, w')
  | Some success =>
      if truthy success then
        match read_count result with
        | None => (None, w')
        | Some count => (Some (Some count), w')
        end
      else (Some None, w')
  end.

(** The [for table in tables] loop; [None] when an exception ends it. *)
Fixpoint count_tables (tables : list str) (answer : str) (w : world E)
  : option (list SqlValue) * world E :=
  match tables with
  | [] => (Some [], w)
  | table :: rest =>
      match count_query (count_statement table) answer w with
      | (None, w') => (None, w')
      | (Some count, w') =>
          let '(counts, w'') := count_tables rest answer w' in
          (option_map (app (option_list count)) counts, w'')
      end
  end.

(** [display_stats]: the counts it could read, or [None] when an exception
    reached its handler, and the world its queries leave.  The size of the
    file, read last, is not part of the model. *)
Definition display_stats (answer : str) (w : world E)
  : option (list SqlValue) * world E :=
  match count_tables [py "users"; py "products"; py "orders"] answer w with
  | (None, w') => (None, w')
  | (Some counts, w') =>
      match count_query today_statement answer w' with
      | (None, w'') => (None, w'')
      | (Some count, w'') => (Some (counts ++ option_list count), w'')
      end
  end.



(** How [process_natural_language_query] ends. *)
Inductive Handled :=
| AiError (error : str)                       (* the translation failed *)
| QueryCancelled                              (* declined at [Prompt.ask] *)
| Displayed (result : Result) (shown : Shown) (* run and shown *)
| DisplayRaised (result : Result) (key : str). (* [display_results] raised *)

(** [process_natural_language_query].  [confirm] is what [Prompt.ask]
    returns and [answer] what is typed at the prompt of [execute_query],
    each read only if asked for.  [None]: [display_results] met a result
    outside its model. *)
Definition process_natural_language_query (net : Network)
    (confirm answer : str) (user_input : str) (app : App)
  : option (Handled * App) :=
  let '(schema_info, w1) := get_schema_info (db app) in
  let llm1 := add_table_context (llm app) schema_info in
  let '(llm_result, llm2) :=
    natural_language_to_sql prefix suffix net llm1 user_input in
  let app1 := {| db := w1; llm := llm2;
                 session_queries := session_queries app |} in
  match llm_result with
  | TranslationFailed error => Some (AiError error, app1)
  | Translated sql_query explanation _ =>
      let '(is_dangerous, warning) := is_dangerous_query sql_query in
      if is_dangerous && negb (str_eqb (lower confirm) (py "yes")) then
        Some (QueryCancelled, app1)
      else
        let '(db_result, w2) := execute_query E sql_query None answer w1 in
        match display_results db_result with
        | Printed shown =>
            Some (Displayed db_result shown,
                  {| db := w2; llm := llm2;
                     session_queries := session_queries app ++ [user_input] |})
        | KeyError key =>
            Some (DisplayRaised db_result key,
                  {| db := w2; llm := llm2;
                     session_queries := session_queries app |})
        | Unmodelled => None
        end
  end.





(** The schema turn [process_natural_language_query] stores first. *)
Definition schema_turn (app : App) : Message :=
  {| role := py "system";
     content := py "Database schema information:" ++ [newline]
                ++ fst (get_schema_info (db app)) |}.

(** The request it sends to the translator. *)
Definition translation_request (app : App) (user_input : str) : ChatRequest :=
  chat_request
    (add_table_context (llm app) (fst (get_schema_info (db app))))
    (enhanced_prompt prefix suffix user_input) true.

End Program.

Arguments db {E} _.
Arguments llm {E} _.
Arguments session_queries {E} _.

(** The script of an engine that reports one row written, with id 6. *)
Definition one_row_written : str -> exn + Reply := fun _ =>
  inr {| reply_description := None; reply_rows := [];
         reply_rowcount := 1; reply_lastrowid := Some 6%Z |}.

(** A program over the recording engine, for examples: the schema text is
    fixed and reading it makes no call. *)
Definition demo_schema : list Event -> str * list Event :=
  fun w => (py "Table: users", w).

Definition demo_app : App (recorder accept_all) :=
  Build_App (recorder accept_all) (@nil Event) demo_client [py "earlier"].

End MainProgram.

Import MainProgram.

(** ** A scripted engine *)

Module Scripted.

(** An engine whose every call is scripted.  [fault log call] is the
    exception [call] raises when it is made after the calls of [log], if
    it raises; [reply] is the cursor an accepted statement gives.  The world
    is the log of the calls made, whether they raised or not. *)
Definition outcome {A} (fault : option exn) (a : A) : exn + A :=
  match fault with
  | Some e => inl e
  | None => inr a
  end.

Definition scripted (reply : str -> Reply)
    (fault : list Event -> Event -> option exn) : Engine := {|
  world := list Event;
  cursor := Reply;
  connect := fun w => (outcome (fault w EvConnect) tt, w ++ [EvConnect]);
  execute := fun sql params w =>
    (outcome (fault w (EvExecute sql params)) (reply sql),
     w ++ [EvExecute sql params]);
  fetchall := fun cur w =>
    (outcome (fault w EvFetchall) (reply_rows cur), w ++ [EvFetchall]);
  description := reply_description;
  rowcount := reply_rowcount;
  lastrowid := reply_lastrowid;
  commit := fun w => (outcome (fault w EvCommit) tt, w ++ [EvCommit]);
  rollback := fun w => (outcome (fault w EvRollback) tt, w ++ [EvRollback])
|}.


(** The faults of a locked database: every commit raises, nothing else
    does. *)
Definition commit_locked : list Event -> Event -> option exn :=
  fun _ call =>
    match call with
    | EvCommit => Some (SqliteError (py "database is locked"))
    | _ => None
    end.

End Scripted.

Import Scripted.

(* ===================================================================== *)
(** * Part II: properties                                                 *)
(* ===================================================================== *)

(** ** Facts about the text primitives *)

Module TextFacts.

Lemma ascii_eqb_eq a b : ascii_eqb a b = true <-> a = b.
Proof. apply Ascii.eqb_eq. Qed.


Lemma str_eqb_eq a b : str_eqb a b = true <-> a = b.
Proof.
  revert b. induction a as [|x a IH]; intros [|y b]; simpl; try easy.
  rewrite andb_true_iff, ascii_eqb_eq, IH. split.
  - by intros [-> ->].
  - intros [= -> ->]. done.
Qed.

Lemma startswith_spec p s : startswith p s = true <-> exists b, s = p ++ b.
Proof.
  revert s. induction p as [|x p IH]; intros s; simpl.
  - split; [by exists s | done].
  - destruct s as [|y s].
    + split; [done | by intros [b Hb]].
    + rewrite andb_true_iff, ascii_eqb_eq, IH. split.
      * intros [-> [b ->]]. by exists b.
      * intros [b [= -> ->]]. split; [done | by exists b].
Qed.




Lemma upper_app a b : upper (a ++ b) = upper a ++ upper b.
Proof. apply map_app. Qed.

Lemma upper_length s : length (upper s) = length s.
Proof. apply length_map. Qed.

Lemma isspace_upper c : isspace (upper_char c) = isspace c.
Proof. destruct c as [[] [] [] [] [] [] [] []]; reflexivity. Qed.

Lemma upper_char_idem c : upper_char (upper_char c) = upper_char c.
Proof. destruct c as [[] [] [] [] [] [] [] []]; reflexivity. Qed.

Lemma upper_idem s : upper (upper s) = upper s.
Proof.
  unfold upper. rewrite map_map. apply map_ext. apply upper_char_idem.
Qed.

(** *** Stripping *)

Lemma lstrip_split s :
  exists ws, s = ws ++ lstrip s /\ forallb isspace ws = true.
Proof.
  induction s as [|c s [ws [Hs Hws]]]; simpl.
  - by exists [].
  - destruct (isspace c) eqn:Hc.
    + exists (c :: ws). simpl. rewrite Hc, Hws. split; [by f_equal | done].
    + by exists [].
Qed.

Lemma all_rev (f : ascii -> bool) l :
  forallb f l = true -> forallb f (rev l) = true.
Proof.
  rewrite !forallb_forall. intros H x Hx. apply H. by apply in_rev.
Qed.

Lemma rstrip_split s :
  exists ws, s = rstrip s ++ ws /\ forallb isspace ws = true.
Proof.
  unfold rstrip. destruct (lstrip_split (rev s)) as [ws [Hs Hws]].
  exists (rev ws). split.
  - rewrite <- rev_app_distr, <- Hs. by rewrite rev_involutive.
  - by apply all_rev.
Qed.

Lemma strip_split s :
  exists l r, s = l ++ strip s ++ r
              /\ forallb isspace l = true /\ forallb isspace r = true.
Proof.
  destruct (lstrip_split s) as [l [Hl Hlw]].
  destruct (rstrip_split (lstrip s)) as [r [Hr Hrw]].
  exists l, r. unfold strip. by rewrite <- Hr.
Qed.

Lemma lstrip_head s c t : lstrip s = c :: t -> isspace c = false.
Proof.
  induction s as [|x s IH]; simpl; [done|].
  destruct (isspace x) eqn:Hx; [done|]. by intros [= <- <-].
Qed.

Lemma lstrip_spaces ws s :
  forallb isspace ws = true -> lstrip (ws ++ s) = lstrip s.
Proof.
  induction ws as [|c ws IH]; simpl; [done|].
  rewrite andb_true_iff. intros [-> H]. by apply IH.
Qed.

Lemma lstrip_idem s : lstrip (lstrip s) = lstrip s.
Proof.
  destruct (lstrip s) as [|c t] eqn:E; [done|].
  simpl. by rewrite (lstrip_head _ _ _ E).
Qed.

Lemma lstrip_upper s : lstrip (upper s) = upper (lstrip s).
Proof.
  induction s as [|c s IH]; simpl; [done|].
  rewrite isspace_upper. by destruct (isspace c).
Qed.

Lemma rstrip_upper s : rstrip (upper s) = upper (rstrip s).
Proof.
  unfold rstrip.
  replace (rev (upper s)) with (upper (rev s)) by apply map_rev.
  rewrite lstrip_upper. symmetry. apply map_rev.
Qed.

Lemma strip_upper s : strip (upper s) = upper (strip s).
Proof. unfold strip. by rewrite lstrip_upper, rstrip_upper. Qed.

Lemma strip_occurs s : occurs (strip s) s.
Proof. destruct (strip_split s) as [l [r [H _]]]. by exists l, r. Qed.

Lemma occurs_trans p q s : occurs p q -> occurs q s -> occurs p s.
Proof.
  intros [a [b ->]] [a' [b' ->]]. exists (a' ++ a), (b ++ b').
  by rewrite <- !app_assoc.
Qed.






End TextFacts.

Import TextFacts.

(** ** The danger policy *)

Module DangerPolicy.












End DangerPolicy.

(** ** The execution gateway *)

Module ExecutionGateway.

(** *** The classifier's token *)

Lemma split_nil s : split s = [] <-> forallb isspace s = true.
Proof.
  induction s as [|c s IH]; [done|].
  cbn [split forallb]. destruct (isspace c) eqn:Hc; [by rewrite IH|].
  split; [|done].
  destruct s as [|d s']; [done|].
  destruct (isspace d); [done|]. by destruct (split (d :: s')).
Qed.

(** [s.split()[0]] is the first whitespace-delimited token. *)
Lemma split_first_token s :
  forallb isspace s = false -> exists rest, split s = first_token s :: rest.
Proof.
  unfold first_token. induction s as [|c s IH]; [done|].
  cbn [forallb split lstrip]. destruct (isspace c) eqn:Hc; [exact IH|].
  intros _. cbn [token]. rewrite Hc.
  destruct s as [|d s']; [by exists []|].
  destruct (isspace d) eqn:Hd.
  - exists (split (d :: s')). cbn [token]. by rewrite Hd.
  - destruct IH as [rest Hrest]; [cbn [forallb]; by rewrite Hd|].
    rewrite Hrest. exists rest.
    cbn [lstrip]. by rewrite Hd.
Qed.

Lemma forallb_isspace_upper s :
  forallb isspace (upper s) = forallb isspace s.
Proof.
  unfold upper. induction s as [|c s IH]; [done|].
  cbn [map forallb]. by rewrite isspace_upper, IH.
Qed.

Lemma token_upper s : token (upper s) = upper (token s).
Proof.
  unfold upper. induction s as [|c s IH]; [done|].
  cbn [map token]. rewrite isspace_upper. destruct (isspace c); [done|].
  cbn [map]. by rewrite IH.
Qed.

Lemma strip_blank s : forallb isspace s = true -> strip s = [].
Proof.
  intros H. unfold strip.
  replace (lstrip s) with (@nil ascii); [done|].
  rewrite <- (app_nil_r s). by rewrite lstrip_spaces.
Qed.

Lemma forallb_app_spaces (a b : str) :
  forallb isspace (a ++ b) = forallb isspace a && forallb isspace b.
Proof. apply forallb_app. Qed.

Lemma strip_nonblank s :
  forallb isspace s = false -> forallb isspace (strip s) = false.
Proof.
  intros H. destruct (strip_split s) as (l & r & Hs & Hl & Hr).
  rewrite Hs, !forallb_app_spaces, Hl, Hr in H.
  by rewrite andb_true_l, andb_true_r in H.
Qed.

Lemma token_lstrip_strip s : first_token (strip s) = first_token s.
Proof.
  unfold first_token, strip.
  destruct (rstrip_split (lstrip s)) as (ws & Hs & Hws).
  set (u := rstrip (lstrip s)) in *.
  assert (Hu : lstrip u = u).
  { unfold u, rstrip.
    destruct (lstrip s) as [|c t] eqn:E; [done|].
    pose proof (lstrip_head _ _ _ E) as Hc.
    fold (rstrip (c :: t)). fold u in Hs |- *.
    destruct u as [|c' u']; [done|].
    injection Hs as <- _. cbn. by rewrite Hc. }
  rewrite Hu, Hs. clear Hs Hu. generalize u. clear -Hws.
  induction u as [|c u IH]; cbn.
  - destruct ws as [|x ws]; [done|]. cbn in *.
    apply andb_true_iff in Hws as [-> _]. done.
  - destruct (isspace c); [done|]. by rewrite IH.
Qed.

(** The classifier reads the upper-cased first token, and finds none in a
    blank statement. *)
Lemma sql_type_of_spec sql :
  sql_type_of sql =
    if forallb isspace sql
    then inl (OtherException (py "list index out of range"))
    else inr (upper (first_token sql)).
Proof.
  unfold sql_type_of. destruct (forallb isspace sql) eqn:Hb.
  - rewrite (strip_blank _ Hb). done.
  - destruct (split_first_token (upper (strip sql))) as [rest ->].
    + rewrite forallb_isspace_upper. by apply strip_nonblank.
    + unfold first_token at 1. rewrite lstrip_upper, token_upper.
      fold (first_token (strip sql)). by rewrite token_lstrip_strip.
Qed.

(** Classification does not depend on letter case nor on leading blanks. *)
Lemma sql_type_of_case a b : upper a = upper b -> sql_type_of a = sql_type_of b.
Proof.
  intros H. unfold sql_type_of. by rewrite <- !strip_upper, H.
Qed.

Lemma sql_type_of_leading ws s :
  forallb isspace ws = true -> sql_type_of (ws ++ s) = sql_type_of s.
Proof.
  intros H. unfold sql_type_of, strip. by rewrite lstrip_spaces.
Qed.

(** *** The confirmation prompt *)

Section Confirmation.

Variable E : Engine.

Lemma try_body_proceeds sql params answer :
  proceeds sql answer = true ->
  try_body E sql params answer = with_connection E (run_statement E sql params).
Proof.
  unfold proceeds, try_body.
  destruct (is_dangerous_query sql) as [[] warning]; cbn [fst negb orb]; [|done].
  by intros ->.
Qed.

Lemma try_body_declined sql params answer :
  proceeds sql answer = false ->
  try_body E sql params answer = ret cancelled_result.
Proof.
  unfold proceeds, try_body.
  destruct (is_dangerous_query sql) as [[] warning]; cbn [fst negb orb]; [|done].
  by intros ->.
Qed.

(** Only the cancelled outcome carries the key ["cancelled"]. *)
Lemma cancelled_key_shapes :
  cancelled_result !! "cancelled" = Some (VBool true)
  /\ (forall msg sql, database_error_result msg sql !! "cancelled" = None)
  /\ (forall msg sql, unexpected_error_result msg sql !! "cancelled" = None)
  /\ (forall t, unsupported_result t !! "cancelled" = None)
  /\ (forall rows cols, select_result rows cols !! "cancelled" = None)
  /\ (forall a l t, mutation_result a l t !! "cancelled" = None).
Proof. repeat split. Qed.

(** C2: when the verdict is dangerous and the operator does not answer yes,
    [execute_query] returns the cancelled outcome and leaves the world as it
    was: no engine call is made.  That outcome carries ["cancelled"], which
    none of the row-set, mutation-summary and error results does, so it is
    none of them. *)
Theorem declined_is_cancelled sql params answer (w : world E) :
  fst (is_dangerous_query sql) = true ->
  str_in (lower answer) [py "yes"; py "y"] = false ->
  execute_query E sql params answer w = (cancelled_result, w)
  /\ cancelled_result !! "cancelled" = Some (VBool true)
  /\ (forall msg s, cancelled_result <> database_error_result msg s)
  /\ (forall msg s, cancelled_result <> unexpected_error_result msg s)
  /\ (forall t, cancelled_result <> unsupported_result t)
  /\ (forall rows cols, cancelled_result <> select_result rows cols)
  /\ (forall a l t, cancelled_result <> mutation_result a l t).
Proof.
  intros Hd Ha. split.
  - unfold execute_query. rewrite try_body_declined; [done|].
    unfold proceeds. by rewrite Hd, Ha.
  - destruct cancelled_key_shapes as (Hc & H1 & H2 & H3 & H4 & H5).
    repeat split; try done; intros;
      intros Heq; apply (f_equal (fun r : Result => r !! "cancelled")) in Heq;
      cbv beta in Heq; rewrite Hc in Heq;
      rewrite ?H1, ?H2, ?H3, ?H4, ?H5 in Heq; discriminate.
Qed.

(** Conversely, a result that carries ["cancelled"] comes from a declined
    prompt, whatever the engine does. *)
Lemma cancelled_only_when_declined sql params answer (w : world E) :
  fst (execute_query E sql params answer w) !! "cancelled" <> None ->
  proceeds sql answer = false.
Proof.
  destruct (proceeds sql answer) eqn:Hp; [|done].
  intros H. exfalso. apply H. clear H.
  unfold execute_query. rewrite (try_body_proceeds _ _ _ Hp).
  unfold with_connection, run_statement, bind, lift, ret.
  repeat case_match; simplify_eq; reflexivity.
Qed.

End Confirmation.

Lemma declined_is_cancelled_witness :
  execute_query (recorder accept_all) (py "DROP TABLE products") None
    (py "no") [] = (cancelled_result, []).
Proof.
  apply (declined_is_cancelled (recorder accept_all)
           (py "DROP TABLE products") None (py "no") []);
    vm_compute; reflexivity.
Defined.

(** *** Running a statement *)

Section Run.

Variable E : Engine.

Lemma columns_of_description cur :
  columns_of E cur = default [] (description E cur).
Proof. unfold columns_of. by destruct (description E cur) as [[|n ns]|]. Qed.

Lemma mutation_not_select t :
  str_in t mutation_kinds = true -> str_in t [py "SELECT"] = false.
Proof.
  unfold str_in, mutation_kinds. cbn [existsb].
  intros H.
  repeat (apply orb_true_iff in H as [H|H];
          [apply str_eqb_eq in H as ->; reflexivity|]).
  discriminate.
Qed.

(** A statement of an unsupported kind has been run, and the connection's
    exit has committed, by the time it is reported as unsupported. *)
Lemma unsupported_after_execution sql params answer
    (w w1 w2 w3 : world E) cur t :
  proceeds sql answer = true ->
  connect E w = (inr tt, w1) ->
  cursor_execute E sql params w1 = (inr cur, w2) ->
  sql_type_of sql = inr t ->
  str_in t supported_kinds = false ->
  commit E w2 = (inr tt, w3) ->
  execute_query E sql params answer w = (unsupported_result t, w3).
Proof.
  intros Hp Hc Hx Ht Hk Hm.
  unfold execute_query. rewrite (try_body_proceeds _ _ _ _ Hp).
  unfold with_connection, run_statement, bind, lift, ret.
  rewrite Hc, Hx, Ht.
  unfold supported_kinds, str_in in Hk. cbn [existsb] in Hk.
  apply orb_false_iff in Hk as [Hs Hk].
  unfold str_in. cbn [existsb]. rewrite Hs. cbn [orb].
  unfold mutation_kinds, str_in in Hk. cbn [existsb] in Hk. rewrite Hk.
  by rewrite Hm.
Qed.

(** C6: a SELECT statement that reaches the engine and that the engine
    accepts comes back as a successful row set: all the rows [fetchall]
    yields, the column names of the cursor's description, and the number of
    rows as [row_count].  No case is made of an empty list of rows. *)
Theorem select_returns_rowset sql params answer
    (w w1 w2 w3 w4 : world E) cur rows :
  proceeds sql answer = true ->
  connect E w = (inr tt, w1) ->
  cursor_execute E sql params w1 = (inr cur, w2) ->
  sql_type_of sql = inr (py "SELECT") ->
  fetchall E cur w2 = (inr rows, w3) ->
  commit E w3 = (inr tt, w4) ->
  execute_query E sql params answer w
    = (select_result rows (default [] (description E cur)), w4)
  /\ forall result, result = fst (execute_query E sql params answer w) ->
       result !! "success" = Some (VBool true)
       /\ result !! "data" = Some (VData rows)
       /\ result !! "columns"
          = Some (VColumns (default [] (description E cur)))
       /\ result !! "row_count" = Some (VInt (Z.of_nat (length rows)))
       /\ result !! "error" = None
       /\ result !! "cancelled" = None.
Proof.
  intros Hp Hc Hx Ht Hf Hm.
  assert (execute_query E sql params answer w
          = (select_result rows (default [] (description E cur)), w4)) as ->.
  { unfold execute_query. rewrite (try_body_proceeds _ _ _ _ Hp).
    unfold with_connection, run_statement, bind, lift, ret.
    rewrite Hc, Hx, Ht. cbv beta iota.
    change (str_in (py "SELECT") [py "SELECT"]) with true. cbv beta iota.
    by rewrite Hf, Hm, columns_of_description. }
  split; [done|]. intros result ->. cbn [fst]. repeat split.
Qed.

(** A statement of one of the six mutating kinds is committed and comes
    back as a mutation summary. *)
Lemma mutation_returns_summary sql params answer
    (w w1 w2 w3 w4 : world E) cur t :
  proceeds sql answer = true ->
  connect E w = (inr tt, w1) ->
  cursor_execute E sql params w1 = (inr cur, w2) ->
  sql_type_of sql = inr t ->
  str_in t mutation_kinds = true ->
  commit E w2 = (inr tt, w3) ->
  commit E w3 = (inr tt, w4) ->
  execute_query E sql params answer w
  = (mutation_result (rowcount E cur) (lastrowid E cur) t, w4).
Proof.
  intros Hp Hc Hx Ht Hk Hm Hm'.
  unfold execute_query. rewrite (try_body_proceeds _ _ _ _ Hp).
  unfold with_connection, run_statement, bind, lift, ret.
  rewrite Hc, Hx, Ht. cbv beta iota.
  fold mutation_kinds. rewrite Hk, (mutation_not_select _ Hk).
  cbv beta iota. by rewrite Hm, Hm'.
Qed.

(** C7: when the engine raises [sqlite3.Error] with message [msg] while a
    statement that reached it is run, [execute_query] returns the error
    result that carries [msg] and the text of the statement. *)
Theorem engine_failure_is_reported sql params answer (w w' : world E) msg :
  proceeds sql answer = true ->
  engine_fails E sql params w (SqliteError msg) w' ->
  execute_query E sql params answer w = (database_error_result msg sql, w')
  /\ database_error_result msg sql !! "success" = Some (VBool false)
  /\ database_error_result msg sql !! "error"
     = Some (VStr (py "Database error: " ++ msg))
  /\ database_error_result msg sql !! "sql" = Some (VStr sql).
Proof.
  intros Hp Hf. split; [|repeat split].
  unfold execute_query. rewrite (try_body_proceeds _ _ _ _ Hp).
  unfold with_connection.
  inversion Hf as [e w1 Hc | w1 e w2 w3 Hc Hx Hr
                  | w1 cur w2 e w3 w4 Hc Hx Ht Hfe Hr
                  | w1 cur w2 t e w3 w4 Hc Hx Ht Hk Hm Hr
                  | w1 result w2 e w3 Hc Hb Hm
                  | w1 e0 w2 e w3 Hc Hb Hr]; subst; rewrite Hc.
  - done.
  - unfold run_statement, bind. by rewrite Hx, Hr.
  - unfold run_statement, bind, lift. rewrite Hx, Ht. cbv beta iota.
    change (str_in (py "SELECT") [py "SELECT"]) with true. cbv beta iota.
    by rewrite Hfe, Hr.
  - unfold run_statement, bind, lift. rewrite Hx, Ht. cbv beta iota.
    fold mutation_kinds. rewrite Hk, (mutation_not_select _ Hk).
    cbv beta iota. by rewrite Hm, Hr.
  - by rewrite Hb, Hm.
  - by rewrite Hb, Hr.
Qed.

End Run.

Lemma select_returns_rowset_witness :
  execute_query (recorder count_of_empty)
    (py "SELECT COUNT( * ) FROM drafts") None (py "") []
  = (select_result [[(py "COUNT( * )", SqlInteger 0)]] [py "COUNT( * )"],
     [EvConnect; EvExecute (py "SELECT COUNT( * ) FROM drafts") None;
      EvFetchall; EvCommit]).
Proof.
  pose (sql := py "SELECT COUNT( * ) FROM drafts").
  refine (proj1 (select_returns_rowset (recorder count_of_empty)
                   sql None (py "") []
                   [EvConnect]
                   [EvConnect; EvExecute sql None]
                   [EvConnect; EvExecute sql None; EvFetchall]
                   [EvConnect; EvExecute sql None; EvFetchall; EvCommit]
                   {| reply_description := Some [py "COUNT( * )"];
                      reply_rows := [[(py "COUNT( * )", SqlInteger 0)]];
                      reply_rowcount := (-1)%Z; reply_lastrowid := None |}
                   [[(py "COUNT( * )", SqlInteger 0)]] _ _ _ _ _ _));
    reflexivity.
Defined.

(** A query that yields no row is a success with an empty sequence. *)
Example select_no_rows :
  let result :=
    fst (execute_query (recorder accept_all)
           (py "select * from users where age > 200") None (py "") []) in
  result !! "success" = Some (VBool true)
  /\ result !! "data" = Some (VData [])
  /\ result !! "row_count" = Some (VInt 0).
Proof. repeat split. Qed.

Lemma engine_failure_is_reported_witness :
  execute_query (recorder (reject_all (py "no such table: ghosts")))
    (py "SELECT * FROM ghosts") None (py "") []
  = (database_error_result (py "no such table: ghosts")
       (py "SELECT * FROM ghosts"),
     [EvConnect; EvExecute (py "SELECT * FROM ghosts") None; EvRollback]).
Proof.
  pose (sql := py "SELECT * FROM ghosts").
  refine (proj1 (engine_failure_is_reported
                   (recorder (reject_all (py "no such table: ghosts")))
                   sql None (py "") []
                   [EvConnect; EvExecute sql None; EvRollback]
                   (py "no such table: ghosts") _ _)).
  - reflexivity.
  - apply (fails_execute
             (recorder (reject_all (py "no such table: ghosts")))
             sql None [] [EvConnect] _
             [EvConnect; EvExecute sql None]); reflexivity.
Defined.

(** Whatever is raised inside the [try] comes back as a result that says
    so and quotes the statement. *)
Lemma every_exception_is_reported (E : Engine) sql params answer
    (w w' : world E) e :
  try_body E sql params answer w = (inl e, w') ->
  exists label msg,
    execute_query E sql params answer w
    = ({[ "success" := VBool false;
          "error" := VStr (label ++ msg);
          "sql" := VStr sql ]}, w').
Proof.
  intros H. unfold execute_query. rewrite H. destruct e as [msg|msg].
  - by exists (py "Database error: "), msg.
  - by exists (py "Unexpected error: "), msg.
Qed.

(** C1 fails on the code: a statement whose first token is none of the
    seven kinds is handed to the engine, and the exit of the connection
    commits, before the kind is looked at.  REPLACE is reported as
    unsupported after the engine has run it. *)
Theorem unsupported_statement_is_executed :
  let sql := py "REPLACE INTO users (id, name) VALUES (1, 'Zed')" in
  sql_type_of sql = inr (py "REPLACE")
  /\ str_in (py "REPLACE") supported_kinds = false
  /\ execute_query (recorder accept_all) sql None (py "") []
     = (unsupported_result (py "REPLACE"),
        [EvConnect; EvExecute sql None; EvCommit]).
Proof. repeat split. Qed.

(** C5 fails on the code: for a blank statement [split()] is empty, taking
    its first element raises, and the statement, already handed to the
    engine, is reported through the handler of unexpected exceptions and
    not as an unsupported kind. *)
Theorem blank_statement_is_not_classified :
  sql_type_of (py "") = inl (OtherException (py "list index out of range"))
  /\ sql_type_of (py "   ")
     = inl (OtherException (py "list index out of range"))
  /\ execute_query (recorder accept_all) (py "") None (py "") []
     = (unexpected_error_result (py "list index out of range") (py ""),
        [EvConnect; EvExecute (py "") None; EvRollback])
  /\ forall t,
       unexpected_error_result (py "list index out of range") (py "")
       <> unsupported_result t.
Proof.
  repeat split. intros t Heq.
  apply (f_equal (fun r : Result => r !! "sql")) in Heq. discriminate.
Qed.

(** On no engine is a blank statement reported as an unsupported kind. *)
Lemma blank_never_unsupported (E : Engine) sql params answer
    (w : world E) t :
  forallb isspace sql = true ->
  fst (execute_query E sql params answer w) <> unsupported_result t.
Proof.
  intros Hb. unfold execute_query.
  destruct (proceeds sql answer) eqn:Hp.
  - rewrite (try_body_proceeds _ _ _ _ Hp).
    unfold with_connection, run_statement, bind, lift.
    rewrite sql_type_of_spec, Hb.
    repeat case_match; simplify_eq; cbn [fst]; intros Heq;
      apply (f_equal (fun r : Result => r !! "sql")) in Heq; discriminate.
  - rewrite (try_body_declined _ _ _ _ Hp). cbn. intros Heq.
    apply (f_equal (fun r : Result => r !! "cancelled")) in Heq.
    discriminate.
Qed.

(** What does hold of the classifier: a statement with a visible character
    is classified by its upper-cased first token. *)
Lemma classified_by_first_token (E : Engine) sql params answer
    (w w1 w2 w3 : world E) cur :
  forallb isspace sql = false ->
  proceeds sql answer = true ->
  connect E w = (inr tt, w1) ->
  cursor_execute E sql params w1 = (inr cur, w2) ->
  str_in (upper (first_token sql)) supported_kinds = false ->
  commit E w2 = (inr tt, w3) ->
  execute_query E sql params answer w
  = (unsupported_result (upper (first_token sql)), w3).
Proof.
  intros Hb Hp Hc Hx Hk Hm.
  eapply unsupported_after_execution; eauto.
  by rewrite sql_type_of_spec, Hb.
Qed.

End ExecutionGateway.

(** ** The translator adapter *)

Module Translator.

(** *** Searching *)



Lemma find_from_none p s i : find_from p s i = None -> contains p s = false.
Proof.
  revert i. induction s as [|c s IH]; intros i; cbn [find_from contains].
  - by destruct (startswith p []).
  - destruct (startswith p (c :: s)); [done|]. apply IH.
Qed.





(** *** Trimming *)

Lemma strip_trimmed s : trimmed (strip s).
Proof.
  unfold strip. split.
  - intros c t H.
    destruct (rstrip_split (lstrip s)) as (ws & Hs & _).
    rewrite H in Hs. by apply (lstrip_head s c (t ++ ws)).
  - intros t c H. unfold rstrip in H.
    apply (f_equal (@rev ascii)) in H.
    rewrite rev_involutive, rev_app_distr in H.
    by apply (lstrip_head _ _ _ H).
Qed.

(** *** Lines *)

Lemma split_on_nonempty sep s : split_on sep s <> [].
Proof.
  destruct s as [|c s]; [done|]. cbn.
  destruct (ascii_eqb c sep); [done|]. by destruct (split_on sep s).
Qed.

(** Joining the lines gives the text back, and no line holds a newline. *)
Lemma join_split_on sep s : join sep (split_on sep s) = s.
Proof.
  induction s as [|c s IH]; [done|]. cbn [split_on].
  destruct (ascii_eqb c sep) eqn:Hc.
  - apply ascii_eqb_eq in Hc as ->.
    pose proof (split_on_nonempty sep s).
    cbn [join]. destruct (split_on sep s) as [|w ws]; [done|].
    cbn [app]. by rewrite IH.
  - pose proof (split_on_nonempty sep s).
    destruct (split_on sep s) as [|w ws]; [done|].
    cbn [join] in *. destruct ws; cbn [app]; by rewrite IH.
Qed.


Lemma keyword_line_spec line :
  startswith_any sql_keywords (upper (strip line)) = true
  <-> keyword_line line.
Proof.
  unfold startswith_any, keyword_line. rewrite existsb_exists. split.
  - intros (k & Hk & Hs). apply startswith_spec in Hs as [B HB].
    unfold upper in HB. apply map_eq_app in HB as (m & rest & Hl & Hm & _).
    by exists k, m, rest.
  - intros (k & m & rest & Hk & Hl & Hm). exists k. split; [done|].
    apply startswith_spec. exists (upper rest).
    by rewrite Hl, upper_app, Hm.
Qed.



(** *** Extraction *)










(** A fence tagged sql that is never closed leaves the line scan to decide. *)
Example extract_sql_unclosed :
  extract_sql (sql_fence ++ py " SELECT 1") = sql_fence ++ py " SELECT 1"
  /\ extract_sql (sql_fence ++ [newline] ++ py "SELECT 1") = py "SELECT 1".
Proof. split; vm_compute; reflexivity. Qed.

End Translator.

(** ** The conversation history *)

Module Conversation.

Lemma last6_suffix {A} (l : list A) : last6 l `suffix_of` l.
Proof. apply suffix_drop. Qed.

Lemma last6_length {A} (l : list A) : length (last6 l) = Nat.min 6 (length l).
Proof. unfold last6. rewrite length_drop. lia. Qed.

Lemma last6_short {A} (l : list A) : length l <= 6 -> last6 l = l.
Proof.
  intros H. unfold last6. by replace (length l - 6) with 0 by lia.
Qed.

(** What [query_llm] does to the client, case by case. *)
Lemma query_llm_cases net c user_message include_context :
  query_llm net c user_message include_context = (None, c)
  \/ exists ai_response,
       net (chat_request c user_message include_context)
       = Responded 200 (Some ai_response)
       /\ query_llm net c user_message include_context
          = (Some ai_response,
             set_history c
               (conversation_history c
                  ++ [user_turn user_message; assistant_turn ai_response])).
Proof.
  unfold query_llm.
  destruct (net (chat_request c user_message include_context))
    as [status reply| |msg]; auto.
  destruct (Z.eqb_spec status 200) as [->|]; auto.
  destruct reply as [ai_response|]; auto.
  right. exists ai_response. split; [done|].
  by rewrite <- app_assoc.
Qed.

Lemma query_llm_grows net c user_message include_context :
  conversation_history c
    `prefix_of` conversation_history
                  (snd (query_llm net c user_message include_context)).
Proof.
  destruct (query_llm_cases net c user_message include_context)
    as [->|(a & _ & ->)]; cbn [snd].
  - done.
  - cbn. by apply prefix_app_r.
Qed.

Lemma after_grows c call :
  call <> CallClearHistory ->
  conversation_history c `prefix_of` conversation_history (after c call).
Proof.
  intros Hcall. destruct call as [net m ic|pre suf net m|info|]; cbn [after].
  - apply query_llm_grows.
  - unfold natural_language_to_sql.
    pose proof (query_llm_grows net c (enhanced_prompt pre suf m) true) as H.
    destruct (query_llm net c (enhanced_prompt pre suf m) true)
      as [[[|ch r]|] c']; exact H.
  - cbn. by apply prefix_app_r.
  - done.
Qed.

Lemma session_grows calls c :
  ~ In CallClearHistory calls ->
  conversation_history c
    `prefix_of` conversation_history (session c calls).
Proof.
  unfold session. revert c.
  induction calls as [|call calls IH]; intros c Hno; cbn [fold_left].
  - done.
  - transitivity (conversation_history (after c call)).
    + apply after_grows. intros ->. apply Hno. by left.
    + apply IH. intros Hin. apply Hno. by right.
Qed.

(** C9: the messages sent to the translator are the system prompt, the
    last six stored turns (all of them when there are fewer) and the
    current user message; with [include_context] off, the user message
    alone.  The stored history is not cut: every call other than
    [clear_history] leaves the old history as a prefix of the new one, over
    a whole session as well, and [clear_history] empties it. *)
Theorem history_window_and_growth :
  (forall c user_message include_context,
     exists window,
       req_messages (chat_request c user_message include_context)
       = (if include_context then [system_turn c] else [])
           ++ window ++ [user_turn user_message]
       /\ window `suffix_of` conversation_history c
       /\ length window <= 6
       /\ (include_context = true ->
           window = last6 (conversation_history c)
           /\ length window = Nat.min 6 (length (conversation_history c))))
  /\ (forall c call,
        call <> CallClearHistory ->
        conversation_history c
          `prefix_of` conversation_history (after c call))
  /\ (forall c calls,
        ~ In CallClearHistory calls ->
        conversation_history c
          `prefix_of` conversation_history (session c calls))
  /\ (forall c call,
        length (conversation_history (after c call))
        < length (conversation_history c) ->
        call = CallClearHistory)
  /\ (forall c, conversation_history (clear_history c) = []).
Proof.
  split; [|split; [|split; [|split]]].
  - intros c m [|]; cbn [chat_request req_messages build_messages].
    + exists (last6 (conversation_history c)). split; [|split; [|split]].
      * cbn. by rewrite <- ?app_assoc.
      * apply last6_suffix.
      * rewrite last6_length. lia.
      * intros _. split; [done|apply last6_length].
    + exists []. split; [done|]. split; [apply suffix_nil|].
      split; [cbn; lia|done].
  - apply after_grows.
  - intros c calls. apply session_grows.
  - intros c call Hlt.
    assert (call = CallClearHistory \/ call <> CallClearHistory)
      as [|Hcall] by (destruct call; auto); [done|].
    exfalso. pose proof (after_grows c call Hcall) as Hp.
    apply prefix_length in Hp. lia.
  - done.
Qed.

Lemma history_window_and_growth_witness :
  conversation_history demo_client
    `prefix_of` conversation_history
                  (after demo_client (CallAddTableContext (py "Table: users")))
  /\ conversation_history demo_client
       `prefix_of` conversation_history
                     (session demo_client
                        [CallQuery (answers 200 (Some (py "SELECT 1")))
                           (py "q5") true;
                         CallAddTableContext (py "Table: users");
                         CallQuery times_out (py "q6") true]).
Proof.
  destruct history_window_and_growth as (_ & Hcall & Hsession & _).
  split.
  - apply Hcall. discriminate.
  - apply Hsession. cbn. intros [H|[H|[H|[]]]]; discriminate.
Defined.

(** With eight stored turns, the request carries the system prompt, turns
    three to eight and the new message; the eight turns stay stored and the
    two new ones follow them. *)
Example window_of_eight :
  req_messages (chat_request demo_client (py "q5") true)
  = [ system_turn demo_client;
      user_turn (py "q2"); assistant_turn (py "a2");
      user_turn (py "q3"); assistant_turn (py "a3");
      user_turn (py "q4"); assistant_turn (py "a4");
      user_turn (py "q5") ]
  /\ conversation_history
       (snd (query_llm (answers 200 (Some (py "SELECT 1")))
               demo_client (py "q5") true))
     = conversation_history demo_client
         ++ [user_turn (py "q5"); assistant_turn (py "SELECT 1")].
Proof. split; reflexivity. Qed.

(** C10: when the call to the translator fails (a status other than 200, a
    timeout, any other exception, or a body without the expected content),
    [query_llm] returns no response and the client is unchanged; when it
    succeeds, the user message and the response are appended to the history,
    in that order, and the other fields of the client are unchanged. *)
Theorem query_llm_frame net c user_message include_context :
  let req := chat_request c user_message include_context in
  let outcome := query_llm net c user_message include_context in
  (forall ai_response,
     net req = Responded 200 (Some ai_response) ->
     fst outcome = Some ai_response
     /\ conversation_history (snd outcome)
        = conversation_history c
            ++ [user_turn user_message; assistant_turn ai_response]
     /\ base_url (snd outcome) = base_url c
     /\ model (snd outcome) = model c
     /\ system_prompt (snd outcome) = system_prompt c)
  /\ (forall status reply,
        status <> 200%Z -> net req = Responded status reply ->
        outcome = (None, c))
  /\ (net req = TimedOut -> outcome = (None, c))
  /\ (forall msg, net req = Raised msg -> outcome = (None, c))
  /\ (net req = Responded 200 None -> outcome = (None, c)).
Proof.
  intros req outcome. unfold outcome, query_llm. fold req.
  split; [|split; [|split; [|split]]].
  - intros a ->. cbn. by rewrite <- app_assoc.
  - intros status reply Hs ->.
    by destruct (Z.eqb_spec status 200).
  - by intros ->.
  - by intros msg ->.
  - by intros ->.
Qed.

Lemma query_llm_frame_witness :
  query_llm (answers 503 None) demo_client (py "q5") true
  = (None, demo_client)
  /\ query_llm times_out demo_client (py "q5") true = (None, demo_client)
  /\ conversation_history
       (snd (query_llm (answers 200 (Some (py "SELECT 1")))
               demo_client (py "q5") true))
     = conversation_history demo_client
         ++ [user_turn (py "q5"); assistant_turn (py "SELECT 1")].
Proof.
  split; [|split].
  - apply (proj1 (proj2 (query_llm_frame (answers 503 None) demo_client
                           (py "q5") true)) 503%Z None); [lia|reflexivity].
  - apply (proj1 (proj2 (proj2 (query_llm_frame times_out demo_client
                                  (py "q5") true)))).
    reflexivity.
  - apply (proj1 (query_llm_frame (answers 200 (Some (py "SELECT 1")))
                    demo_client (py "q5") true) (py "SELECT 1")).
    reflexivity.
Defined.

End Conversation.

(** ** More on the danger policy *)

Module VerdictFacts.

Import DangerPolicy.


Lemma lstrip_blank s : forallb isspace s = true -> lstrip s = [].
Proof.
  intros H. rewrite <- (app_nil_r s). by rewrite lstrip_spaces.
Qed.

Lemma lstrip_app_visible s r :
  forallb isspace s = false -> lstrip (s ++ r) = lstrip s ++ r.
Proof.
  induction s as [|c s IH]; [done|].
  cbn [forallb app lstrip]. destruct (isspace c); [exact IH|done].
Qed.

Lemma rstrip_spaces s r : forallb isspace r = true -> rstrip (s ++ r) = rstrip s.
Proof.
  intros H. unfold rstrip. rewrite rev_app_distr, lstrip_spaces; [done|].
  by apply all_rev.
Qed.

(** Blanks around a text do not survive [strip]. *)
Lemma strip_margins l s r :
  forallb isspace l = true -> forallb isspace r = true ->
  strip (l ++ s ++ r) = strip s.
Proof.
  intros Hl Hr. unfold strip. rewrite lstrip_spaces by done.
  destruct (forallb isspace s) eqn:Hs.
  - rewrite (lstrip_blank s Hs), lstrip_blank; [done|].
    by rewrite forallb_app, Hs, Hr.
  - rewrite lstrip_app_visible by done. by apply rstrip_spaces.
Qed.

(** The verdict does not depend on letter case nor on blanks around the
    statement. *)
Theorem verdict_ignores_case_and_margins (a b l r : str) :
  upper a = upper b ->
  forallb isspace l = true -> forallb isspace r = true ->
  is_dangerous_query (l ++ a ++ r) = is_dangerous_query b.
Proof.
  intros Hab Hl Hr. unfold is_dangerous_query.
  rewrite !upper_app, strip_margins, Hab; [done| |];
    by rewrite ExecutionGateway.forallb_isspace_upper.
Qed.

Lemma verdict_ignores_case_and_margins_witness :
  is_dangerous_query (py "  drop table Users " ++ [LLMClient.newline])
  = is_dangerous_query (py "DROP TABLE USERS").
Proof.
  apply (verdict_ignores_case_and_margins
           (py "drop table Users") (py "DROP TABLE USERS")
           (py "  ") (py " " ++ [LLMClient.newline])); reflexivity.
Defined.







End VerdictFacts.

(** ** More on the execution gateway *)

Module GatewayProtocol.

Import ExecutionGateway.

(** What the statements under [with] return when they do not raise. *)
Lemma run_statement_shapes (E : Engine) sql params (w1 w2 : world E) r :
  run_statement E sql params w1 = (inr r, w2) ->
  (exists rows cols, r = select_result rows cols)
  \/ (exists a l t,
        str_in t mutation_kinds = true /\ r = mutation_result a l t)
  \/ (exists t,
        str_in t supported_kinds = false /\ r = unsupported_result t).
Proof.
  unfold run_statement, bind, lift, ret. fold mutation_kinds.
  destruct (cursor_execute E sql params w1) as [[e|cur] wx]; [done|].
  destruct (sql_type_of sql) as [e|t]; [done|].
  destruct (str_in t [py "SELECT"]) eqn:Hs.
  - destruct (fetchall E cur wx) as [[e|rows] wf]; [done|].
    intros [= <- <-]. left. by exists rows, (columns_of E cur).
  - destruct (str_in t mutation_kinds) eqn:Hm.
    + destruct (commit E wx) as [[e|u] wc]; [done|].
      intros [= <- <-]. right. left.
      by exists (rowcount E cur), (lastrowid E cur), t.
    + intros [= <- <-]. right. right. exists t. split; [|done].
      unfold supported_kinds, str_in in *. cbn [existsb] in *.
      rewrite orb_false_r in Hs. by rewrite Hs, Hm.
Qed.

Lemma try_body_shapes (E : Engine) sql params answer (w w' : world E) r :
  try_body E sql params answer w = (inr r, w') ->
  r = cancelled_result
  \/ (exists rows cols, r = select_result rows cols)
  \/ (exists a l t,
        str_in t mutation_kinds = true /\ r = mutation_result a l t)
  \/ (exists t,
        str_in t supported_kinds = false /\ r = unsupported_result t).
Proof.
  destruct (proceeds sql answer) eqn:Hp.
  - rewrite (try_body_proceeds _ _ _ _ Hp). unfold with_connection.
    destruct (connect E w) as [[e|u] w1]; [done|].
    destruct (run_statement E sql params w1) as [[e|r0] w2] eqn:Hrun.
    + by destruct (rollback E w2) as [[e'|u'] w3].
    + destruct (commit E w2) as [[e'|u'] w3]; [done|].
      intros [= <- <-]. right. by apply (run_statement_shapes _ _ _ _ _ _ Hrun).
  - rewrite (try_body_declined _ _ _ _ Hp). intros [= <- <-]. by left.
Qed.

(** Every result of [execute_query] has one of six shapes. *)
Lemma execute_query_shapes (E : Engine) sql params answer (w : world E) :
  let r := fst (execute_query E sql params answer w) in
  r = cancelled_result
  \/ (exists rows cols, r = select_result rows cols)
  \/ (exists a l t,
        str_in t mutation_kinds = true /\ r = mutation_result a l t)
  \/ (exists t,
        str_in t supported_kinds = false /\ r = unsupported_result t)
  \/ (exists msg, r = database_error_result msg sql)
  \/ (exists msg, r = unexpected_error_result msg sql).
Proof.
  cbv zeta. unfold execute_query.
  destruct (try_body E sql params answer w) as [[[m|m]|r] w'] eqn:Hbody;
    cbn [fst].
  - do 4 right. left. by exists m.
  - do 5 right. by exists m.
  - pose proof (try_body_shapes _ _ _ _ _ _ _ Hbody) as Hshape. tauto.
Qed.

Lemma error_key_shapes :
  (exists e, cancelled_result !! "error" = Some e)
  /\ (forall msg sql, exists e, database_error_result msg sql !! "error" = Some e)
  /\ (forall msg sql, exists e, unexpected_error_result msg sql !! "error" = Some e)
  /\ (forall t, exists e, unsupported_result t !! "error" = Some e).
Proof. repeat split; intros; eexists; reflexivity. Qed.

Ltac has_error :=
  let H := fresh "H" in
  intros H;
  destruct error_key_shapes as (Hc & Hd & Hu & Hn);
  first [ destruct Hc as [? Hc]; rewrite Hc in H
        | edestruct Hd as [? Hd']; rewrite Hd' in H
        | edestruct Hu as [? Hu']; rewrite Hu' in H
        | edestruct Hn as [? Hn']; rewrite Hn' in H ];
  discriminate H.

(** Whatever the engine does, [execute_query] returns a dictionary of one
    of six shapes: cancelled, row set, mutation summary (for one of the six
    mutating kinds), unsupported kind, database error or unexpected error,
    the last two quoting the statement.  It carries ["error"] exactly when
    ["success"] is false. *)
Theorem result_shapes (E : Engine) sql params answer (w : world E) :
  let r := fst (execute_query E sql params answer w) in
  (r = cancelled_result
   \/ (exists rows cols, r = select_result rows cols)
   \/ (exists a l t,
         str_in t mutation_kinds = true /\ r = mutation_result a l t)
   \/ (exists t,
         str_in t supported_kinds = false /\ r = unsupported_result t)
   \/ (exists msg, r = database_error_result msg sql)
   \/ (exists msg, r = unexpected_error_result msg sql))
  /\ (exists b, r !! "success" = Some (VBool b)
                /\ (b = true <-> r !! "error" = None)).
Proof.
  pose proof (execute_query_shapes E sql params answer w) as Hshape.
  cbv zeta in *. split; [exact Hshape|].
  destruct Hshape as [->|[(rows & cols & ->)|[(a & l & t & _ & ->)
                     |[(t & _ & ->)|[(m & ->)|(m & ->)]]]]].
  - exists false. split; [reflexivity|]. split; [done|has_error].
  - exists true. split; [reflexivity|]. split; intros; reflexivity.
  - exists true. split; [reflexivity|]. split; intros; reflexivity.
  - exists false. split; [reflexivity|]. split; [done|has_error].
  - exists false. split; [reflexivity|]. split; [done|has_error].
  - exists false. split; [reflexivity|]. split; [done|has_error].
Qed.

(** The operator's answer matters only through the decision it carries: a
    statement that is not assessed dangerous runs the same whatever is
    typed, and two confirming answers are as good as each other. *)
Theorem answer_only_decides (E : Engine) sql params a1 a2 (w : world E) :
  fst (is_dangerous_query sql) = false
  \/ (str_in (lower a1) [py "yes"; py "y"] = true
      /\ str_in (lower a2) [py "yes"; py "y"] = true) ->
  execute_query E sql params a1 w = execute_query E sql params a2 w.
Proof.
  intros H. unfold execute_query.
  assert (proceeds sql a1 = true /\ proceeds sql a2 = true) as [H1 H2].
  { unfold proceeds. destruct H as [->|[-> ->]]; [done|].
    by rewrite !orb_true_r. }
  by rewrite !try_body_proceeds.
Qed.

Lemma answer_only_decides_witness :
  execute_query (recorder accept_all) (py "SELECT 1") None (py "no") []
  = execute_query (recorder accept_all) (py "SELECT 1") None (py "yes") []
  /\ execute_query (recorder accept_all) (py "DROP TABLE t") None (py "Y") []
     = execute_query (recorder accept_all) (py "DROP TABLE t") None
         (py "Yes") [].
Proof.
  split.
  - apply answer_only_decides. left. reflexivity.
  - apply answer_only_decides. right. split; reflexivity.
Defined.


(** On a locked database a mutation is executed, its commit raises and the
    rollback follows; a SELECT is executed and fetched, and the closing
    commit that raises is the last call.  Both are reported as database
    errors. *)
Example calls_on_locked_database :
  execute_query (scripted (fun _ => no_rows) commit_locked)
    (py "UPDATE t SET a = 1") None (py "") []
  = (database_error_result (py "database is locked")
       (py "UPDATE t SET a = 1"),
     [EvConnect; EvExecute (py "UPDATE t SET a = 1") None;
      EvCommit; EvRollback])
  /\ execute_query (scripted (fun _ => no_rows) commit_locked)
       (py "SELECT 1") None (py "") []
     = (database_error_result (py "database is locked") (py "SELECT 1"),
        [EvConnect; EvExecute (py "SELECT 1") None; EvFetchall; EvCommit]).
Proof. split; vm_compute; reflexivity. Qed.

Lemma mutation_returns_summary_witness :
  execute_query (recorder one_row_written)
    (py "INSERT INTO users (name) VALUES ('Zed')") None (py "") []
  = (mutation_result 1 (Some 6%Z) (py "INSERT"),
     [EvConnect;
      EvExecute (py "INSERT INTO users (name) VALUES ('Zed')") None;
      EvCommit; EvCommit]).
Proof.
  pose (insert := py "INSERT INTO users (name) VALUES ('Zed')").
  apply (mutation_returns_summary (recorder one_row_written) insert None
           (py "") []
           [EvConnect]
           [EvConnect; EvExecute insert None]
           [EvConnect; EvExecute insert None; EvCommit]
           [EvConnect; EvExecute insert None; EvCommit; EvCommit]
           {| reply_description := None; reply_rows := [];
              reply_rowcount := 1; reply_lastrowid := Some 6%Z |}
           (py "INSERT")); reflexivity.
Defined.

(** *** Keywords that touch what follows *)

Lemma token_app_visible (m : str) c rest :
  Forall (fun x => isspace x = false) m ->
  isspace c = false ->
  token (m ++ c :: rest) = m ++ c :: token rest.
Proof.
  intros Hm Hc. induction Hm as [|x m Hx _ IH]; cbn [app token].
  - by rewrite Hc.
  - by rewrite Hx, IH.
Qed.

Lemma kind_visible m :
  In (upper m) supported_kinds ->
  Forall (fun x => isspace x = false) m /\ m <> [].
Proof.
  intros Hk.
  assert (Hup : Forall (fun x => isspace x = false) (upper m) /\ upper m <> []).
  { unfold supported_kinds, mutation_kinds in Hk. cbn [In] in Hk.
    destruct Hk as [<-|[<-|[<-|[<-|[<-|[<-|[<-|[]]]]]]]];
      (split; [repeat constructor|discriminate]). }
  destruct Hup as [Hall Hne]. split.
  - unfold upper in Hall. rewrite Forall_map in Hall.
    eapply Forall_impl; [exact Hall|]. intros x Hx. cbn in Hx.
    by rewrite isspace_upper in Hx.
  - intros ->. by apply Hne.
Qed.

Lemma longer_than_kind k c r :
  In k supported_kinds -> str_in (k ++ c :: r) supported_kinds = false.
Proof.
  unfold supported_kinds, mutation_kinds. cbn [In].
  intros [<-|[<-|[<-|[<-|[<-|[<-|[<-|[]]]]]]]]; reflexivity.
Qed.

(** The classifier takes the first whitespace-delimited token whole: a
    keyword followed at once by a visible character (SELECT*, select(1),
    DROP;) is none of the seven kinds, so the statement is run and then
    reported as unsupported. *)
Theorem keyword_glued_is_unsupported (m : str) c rest :
  In (upper m) supported_kinds ->
  isspace c = false ->
  exists t,
    sql_type_of (m ++ c :: rest) = inr t
    /\ str_in t supported_kinds = false
    /\ forall (E : Engine) params answer (w w1 w2 w3 : world E) cur,
         proceeds (m ++ c :: rest) answer = true ->
         connect E w = (inr tt, w1) ->
         cursor_execute E (m ++ c :: rest) params w1 = (inr cur, w2) ->
         commit E w2 = (inr tt, w3) ->
         execute_query E (m ++ c :: rest) params answer w
         = (unsupported_result t, w3).
Proof.
  intros Hk Hc. destruct (kind_visible m Hk) as [Hm Hne].
  destruct m as [|x m']; [done|].
  assert (Hx : isspace x = false) by (by inversion Hm).
  assert (Hb : forallb isspace ((x :: m') ++ c :: rest) = false).
  { cbn. by rewrite Hx. }
  assert (Ht : sql_type_of ((x :: m') ++ c :: rest)
               = inr (upper (x :: m') ++ upper_char c :: upper (token rest))).
  { rewrite sql_type_of_spec, Hb. f_equal. unfold first_token.
    replace (lstrip ((x :: m') ++ c :: rest)) with ((x :: m') ++ c :: rest)
      by (cbn; by rewrite Hx).
    rewrite token_app_visible by done.
    by rewrite upper_app. }
  eexists. split; [exact Ht|]. split.
  - by apply longer_than_kind.
  - intros E params answer w w1 w2 w3 cur Hp Hcon Hex Hcom.
    eapply unsupported_after_execution; eauto.
    by apply longer_than_kind.
Qed.

Lemma keyword_glued_is_unsupported_witness :
  exists t,
    sql_type_of (py "select*from users") = inr t
    /\ str_in t supported_kinds = false.
Proof.
  destruct (keyword_glued_is_unsupported (py "select") "*"%char
              (py "from users")) as (t & Ht & Hk & _).
  - vm_compute. tauto.
  - reflexivity.
  - by exists t.
Defined.

End GatewayProtocol.

(** ** More on the translator adapter *)

Module TranslatorFacts.

Import Translator Conversation.

Lemma first_sql_line_some lines x :
  first_sql_line lines = Some x ->
  exists l, In l lines /\ x = strip l /\ keyword_line l.
Proof.
  induction lines as [|l lines IH]; cbn [first_sql_line]; [done|].
  destruct (startswith_any sql_keywords (upper (strip l))) eqn:E.
  - intros [= <-]. exists l. split; [by left|]. split; [done|].
    by apply keyword_line_spec.
  - intros H. destruct (IH H) as (l' & Hin & Hx & Hk).
    exists l'. split; [by right|done].
Qed.

Lemma join_occurs sep l parts : In l parts -> occurs l (join sep parts).
Proof.
  induction parts as [|w ws IH]; [done|].
  intros [<-|Hin].
  - destruct ws as [|w' ws']; cbn [join].
    + exists [], []. by rewrite app_nil_r.
    + by exists [], (sep :: join sep (w' :: ws')).
  - destruct ws as [|w' ws']; [done|].
    destruct (IH Hin) as (a & b & Hj).
    change (join sep (w :: w' :: ws')) with (w ++ sep :: join sep (w' :: ws')).
    rewrite Hj. exists (w ++ sep :: a), b.
    by rewrite <- app_assoc.
Qed.

(** Every line of a text occurs in it. *)
Lemma line_occurs sep l s : In l (split_on sep s) -> occurs l s.
Proof.
  intros H. rewrite <- (join_split_on sep s). by apply join_occurs.
Qed.

Lemma slice_occurs r i j : occurs (slice r i j) r.
Proof.
  unfold slice. set (a := clamp (length r) i). set (n := clamp (length r) j - a).
  exists (take a r), (drop n (drop a r)).
  by rewrite take_drop, take_drop.
Qed.

(** Whatever the response, what [extract_sql] returns has no blank at
    either end. *)
Theorem extract_sql_trimmed r : trimmed (extract_sql r).
Proof.
  unfold extract_sql, scan_lines.
  destruct (contains sql_fence r);
    [destruct (negb _); [apply strip_trimmed|]|];
    (destruct (first_sql_line (split_on newline r)) as [x|] eqn:Hx;
     [apply first_sql_line_some in Hx as (l & _ & -> & _)|];
     apply strip_trimmed).
Qed.

(** [extract_sql] never makes text up: what it returns is a piece of the
    response, in one stretch. *)
Theorem extract_sql_occurs r : occurs (extract_sql r) r.
Proof.
  assert (Hscan : occurs (scan_lines r) r).
  { unfold scan_lines.
    destruct (first_sql_line (split_on newline r)) as [x|] eqn:Hx.
    - apply first_sql_line_some in Hx as (l & Hin & -> & _).
      eapply occurs_trans; [apply strip_occurs|].
      by apply (line_occurs newline).
    - apply strip_occurs. }
  unfold extract_sql.
  destruct (contains sql_fence r); [|done].
  destruct (negb _); [|done].
  eapply occurs_trans; [apply strip_occurs|apply slice_occurs].
Qed.






(** *** Translating *)

(** The result of [natural_language_to_sql], outcome by outcome of the
    call.  Status 200 with a non-empty text: it returns the extracted
    statement, the whole response and the user's own words, and the history
    gains the prompt built around those words and the response.  Status 200
    with an empty text: a failure is reported although the history has
    gained both turns.  Any other status, a body that cannot be decoded or
    lacks the content, a timeout and any other exception of the call: a
    failure is reported and the client is as it was. *)
Theorem translation_outcomes prefix suffix net c user_input :
  let prompt := enhanced_prompt prefix suffix user_input in
  let out := natural_language_to_sql prefix suffix net c user_input in
  let failed := TranslationFailed (py "Failed to get response from AI") in
  (forall ch text,
     net (chat_request c prompt true) = Responded 200 (Some (ch :: text)) ->
     fst out = Translated (extract_sql (ch :: text)) (ch :: text) user_input
     /\ conversation_history (snd out)
        = conversation_history c
            ++ [user_turn prompt; assistant_turn (ch :: text)])
  /\ (net (chat_request c prompt true) = Responded 200 (Some []) ->
      fst out = failed
      /\ conversation_history (snd out)
         = conversation_history c ++ [user_turn prompt; assistant_turn []])
  /\ (forall status reply,
        status <> 200%Z ->
        net (chat_request c prompt true) = Responded status reply ->
        out = (failed, c))
  /\ (net (chat_request c prompt true) = Responded 200 None ->
      out = (failed, c))
  /\ (net (chat_request c prompt true) = TimedOut -> out = (failed, c))
  /\ (forall msg,
        net (chat_request c prompt true) = Raised msg -> out = (failed, c)).
Proof.
  intros prompt out failed.
  unfold out, natural_language_to_sql, query_llm. fold prompt.
  split; [|split; [|split; [|split; [|split]]]].
  - intros ch text ->. cbn. split; [reflexivity|]. by rewrite <- app_assoc.
  - intros ->. cbn. split; [reflexivity|]. by rewrite <- app_assoc.
  - intros status reply Hstatus ->.
    apply Z.eqb_neq in Hstatus. by rewrite Hstatus.
  - intros ->. reflexivity.
  - intros ->. reflexivity.
  - intros msg ->. reflexivity.
Qed.

Lemma translation_outcomes_witness :
  fst (natural_language_to_sql (py "Q: ") (py " A:")
         (answers 200 (Some (py "SELECT * FROM users;")))
         demo_client (py "show users"))
  = Translated (py "SELECT * FROM users;") (py "SELECT * FROM users;")
      (py "show users")
  /\ conversation_history
       (snd (natural_language_to_sql (py "Q: ") (py " A:")
               (answers 200 (Some [])) demo_client (py "show users")))
     = conversation_history demo_client
         ++ [user_turn (py "Q: show users A:"); assistant_turn []]
  /\ natural_language_to_sql (py "Q: ") (py " A:")
       (answers 503 (Some (py "SELECT 1;"))) demo_client (py "show users")
     = (TranslationFailed (py "Failed to get response from AI"), demo_client)
  /\ natural_language_to_sql (py "Q: ") (py " A:") times_out demo_client
       (py "show users")
     = (TranslationFailed (py "Failed to get response from AI"), demo_client).
Proof.
  split; [|split; [|split]].
  - apply (proj1 (translation_outcomes (py "Q: ") (py " A:")
                    (answers 200 (Some (py "SELECT * FROM users;")))
                    demo_client (py "show users"))
             "S"%char (py "ELECT * FROM users;")).
    reflexivity.
  - apply (proj1 (proj2 (translation_outcomes (py "Q: ") (py " A:")
                           (answers 200 (Some [])) demo_client
                           (py "show users")))).
    reflexivity.
  - apply (proj1 (proj2 (proj2 (translation_outcomes (py "Q: ") (py " A:")
                           (answers 503 (Some (py "SELECT 1;"))) demo_client
                           (py "show users"))))
             503%Z (Some (py "SELECT 1;"))).
    + discriminate.
    + reflexivity.
  - apply (proj1 (proj2 (proj2 (proj2 (proj2
             (translation_outcomes (py "Q: ") (py " A:")
                times_out demo_client (py "show users"))))))).
    reflexivity.
Defined.

(** The schema text added before a question is always sent with it: it is
    the last stored turn, so it sits inside the window of six, with at most
    five older turns before it. *)
Theorem fresh_schema_is_forwarded c table_info user_message :
  let c' := add_table_context c table_info in
  let schema_turn :=
    {| role := py "system";
       content := py "Database schema information:" ++ [newline]
                  ++ table_info |} in
  req_messages (chat_request c' user_message true)
  = [system_turn c]
      ++ drop (length (conversation_history c) - 5) (conversation_history c)
      ++ [schema_turn; user_turn user_message].
Proof.
  cbn [chat_request req_messages build_messages add_table_context
         set_history conversation_history system_prompt app].
  unfold last6. rewrite length_app. cbn [length].
  replace (length (conversation_history c) + 1 - 6)
    with (length (conversation_history c) - 5) by lia.
  rewrite drop_app_le by lia.
  unfold system_turn, user_turn. by rewrite <- !app_assoc.
Qed.

End TranslatorFacts.

(** ** What the console is given *)

Module DisplayFacts.

Import ExecutionGateway GatewayProtocol.

(** What is shown for each of the six shapes. *)
Lemma display_cancelled : display_results cancelled_result = Printed CancelledNotice.
Proof. reflexivity. Qed.

Lemma display_database_error msg sql :
  display_results (database_error_result msg sql)
  = Printed (ErrorPanel (py "Error: " ++ (py "Database error: " ++ msg)
                         ++ [newline] ++ py "SQL: " ++ sql)).
Proof. reflexivity. Qed.

Lemma display_unexpected_error msg sql :
  display_results (unexpected_error_result msg sql)
  = Printed (ErrorPanel (py "Error: " ++ (py "Unexpected error: " ++ msg)
                         ++ [newline] ++ py "SQL: " ++ sql)).
Proof. reflexivity. Qed.

Lemma display_unsupported t :
  display_results (unsupported_result t)
  = Printed (ErrorPanel (py "Error: " ++ (py "Unsupported query type: " ++ t)
                         ++ [newline] ++ py "SQL: " ++ py "N/A")).
Proof. reflexivity. Qed.

Lemma display_mutation a l t :
  str_in t mutation_kinds = true ->
  display_results (mutation_result a l t)
  = Printed (SuccessPanel
               ((t ++ py " operation completed successfully") ++ [newline]
                ++ (py "Affected rows: " ++ decimal a) ++ [newline]
                ++ py "Last inserted ID: "
                ++ match l with Some k => decimal k | None => py "None" end)).
Proof.
  intros Hk. apply mutation_not_select in Hk.
  unfold str_in in Hk. cbn [existsb] in Hk. rewrite orb_false_r in Hk.
  unfold display_results, success_panel, detail.
  change (mutation_result a l t !! "success") with (Some (VBool true)).
  change (mutation_result a l t !! "query_type") with (Some (VStr t)).
  change (mutation_result a l t !! "message")
    with (Some (VStr (t ++ py " operation completed successfully"))).
  change (mutation_result a l t !! "affected_rows") with (Some (VInt a)).
  change (mutation_result a l t !! "last_row_id") with (Some (opt_int l)).
  cbn [truthy negb default from_option id is_text]. rewrite Hk.
  destruct l as [k|]; reflexivity.
Qed.

Lemma row_cells_carried cols row :
  carries cols row ->
  row_cells cols row
  = inr (map (fun col => default SqlNull (row_get col row)) cols).
Proof.
  induction 1 as [|col cols Hcol _ IH]; [done|].
  cbn [row_cells map]. rewrite IH.
  by destruct (row_get col row).
Qed.

Lemma table_cells_carried cols rows :
  Forall (carries cols) rows -> table_cells cols rows = inr (cells_of cols rows).
Proof.
  induction 1 as [|row rows Hrow _ IH]; [done|].
  cbn [table_cells cells_of map]. by rewrite (row_cells_carried _ _ Hrow), IH.
Qed.


Lemma display_select rows cols :
  display_results (select_result rows cols)
  = match rows with
    | [] => Printed NoResultsNotice
    | _ :: _ =>
        match table_cells cols rows with
        | inl missing => KeyError missing
        | inr cells =>
            Printed (ResultsTable (decimal (Z.of_nat (length rows))) cols cells)
        end
    end.
Proof.
  unfold display_results, results_table.
  change (select_result rows cols !! "success") with (Some (VBool true)).
  change (select_result rows cols !! "query_type")
    with (Some (VStr (py "SELECT"))).
  change (select_result rows cols !! "row_count")
    with (Some (VInt (Z.of_nat (length rows)))).
  change (select_result rows cols !! "columns") with (Some (VColumns cols)).
  change (select_result rows cols !! "data") with (Some (VData rows)).
  cbn [truthy negb default from_option id is_text format is_zero].
  change (str_eqb (py "SELECT") (py "SELECT")) with true. cbv iota.
  destruct rows as [|row rows]; [done|].
  destruct (Z.eqb_spec (Z.of_nat (length (row :: rows))) 0) as [H|_];
    [cbn in H; lia|done].
Qed.

(** A result is shown as a cancellation exactly when the statement was
    stopped at the prompt: whatever the engine does, no failure and no
    success is ever displayed as a cancellation, and no cancellation as an
    error. *)
Theorem cancellation_shown_apart (E : Engine) sql params answer (w : world E) :
  display_results (fst (execute_query E sql params answer w))
  = Printed CancelledNotice
  <-> proceeds sql answer = false.
Proof.
  split.
  - intros Hshow. apply (cancelled_only_when_declined E sql params answer w).
    pose proof (execute_query_shapes E sql params answer w) as Hshape.
    cbv zeta in Hshape.
    destruct Hshape as [->|[(rows & cols & Hr)|[(a & l & t & Hk & Hr)
                       |[(t & _ & Hr)|[(m & Hr)|(m & Hr)]]]]];
      [done|exfalso; rewrite Hr in Hshow..].
    + rewrite display_select in Hshow.
      destruct rows; [done|]. by destruct (table_cells cols _).
    + by rewrite display_mutation in Hshow.
    + by rewrite display_unsupported in Hshow.
    + by rewrite display_database_error in Hshow.
    + by rewrite display_unexpected_error in Hshow.
  - intros Hp. unfold execute_query.
    by rewrite (try_body_declined _ _ _ _ Hp).
Qed.

Lemma cancellation_shown_apart_witness :
  display_results
    (fst (execute_query (recorder accept_all) (py "DROP TABLE products")
            None (py "no") []))
  = Printed CancelledNotice.
Proof.
  apply (proj2 (cancellation_shown_apart (recorder accept_all)
                  (py "DROP TABLE products") None (py "no") [])).
  reflexivity.
Defined.


(** A row set whose rows carry its columns is shown as the no-results
    notice when it is empty, and otherwise as a table titled with the number
    of rows, with the columns in order and one line of cells per row. *)
Theorem rowset_display (E : Engine) sql params answer (w : world E)
    rows cols :
  fst (execute_query E sql params answer w) = select_result rows cols ->
  Forall (carries cols) rows ->
  display_results (fst (execute_query E sql params answer w))
  = match rows with
    | [] => Printed NoResultsNotice
    | _ :: _ =>
        Printed (ResultsTable (decimal (Z.of_nat (length rows))) cols
                   (cells_of cols rows))
    end.
Proof.
  intros -> Hrows. rewrite display_select.
  destruct rows as [|row rows]; [done|].
  by rewrite (table_cells_carried _ _ Hrows).
Qed.

Lemma rowset_display_witness :
  display_results
    (fst (execute_query (recorder count_of_empty)
            (py "SELECT COUNT( * ) FROM drafts") None (py "") []))
  = Printed (ResultsTable (py "1") [py "COUNT( * )"] [[SqlInteger 0]]).
Proof.
  apply (rowset_display (recorder count_of_empty)
           (py "SELECT COUNT( * ) FROM drafts") None (py "") []
           [[(py "COUNT( * )", SqlInteger 0)]] [py "COUNT( * )"]).
  - reflexivity.
  - repeat constructor. discriminate.
Defined.

(** The error panel quotes the statement after a failure of the engine,
    but not for an unsupported kind, whose result holds no ["sql"]: there
    the panel reads N/A. *)
Theorem error_panel_text (E : Engine) sql params answer
    (w w1 w2 w3 : world E) :
  proceeds sql answer = true ->
  connect E w = (inr tt, w1) ->
  (forall msg,
     cursor_execute E sql params w1 = (inl (SqliteError msg), w2) ->
     rollback E w2 = (inr tt, w3) ->
     display_results (fst (execute_query E sql params answer w))
     = Printed (ErrorPanel (py "Error: Database error: " ++ msg ++ [newline]
                            ++ py "SQL: " ++ sql)))
  /\ (forall cur t,
        cursor_execute E sql params w1 = (inr cur, w2) ->
        sql_type_of sql = inr t ->
        str_in t supported_kinds = false ->
        commit E w2 = (inr tt, w3) ->
        display_results (fst (execute_query E sql params answer w))
        = Printed (ErrorPanel (py "Error: Unsupported query type: " ++ t
                               ++ [newline] ++ py "SQL: N/A"))).
Proof.
  intros Hp Hc. split.
  - intros msg Hx Hr.
    assert (execute_query E sql params answer w
            = (database_error_result msg sql, w3)) as ->.
    { unfold execute_query. rewrite (try_body_proceeds _ _ _ _ Hp).
      unfold with_connection, run_statement, bind.
      by rewrite Hc, Hx, Hr. }
    cbn [fst]. rewrite display_database_error.
    by rewrite <- !app_assoc.
  - intros cur t Hx Ht Hk Hm.
    rewrite (unsupported_after_execution E sql params answer w w1 w2 w3 cur t)
      by done.
    cbn [fst]. rewrite display_unsupported. by rewrite <- !app_assoc.
Qed.

Lemma error_panel_text_witness :
  display_results
    (fst (execute_query (recorder (reject_all (py "no such table: ghosts")))
            (py "SELECT * FROM ghosts") None (py "") []))
  = Printed (ErrorPanel (py "Error: Database error: no such table: ghosts"
                         ++ [newline] ++ py "SQL: SELECT * FROM ghosts"))
  /\ display_results
       (fst (execute_query (recorder accept_all) (py "VACUUM") None (py "")
               []))
     = Printed (ErrorPanel (py "Error: Unsupported query type: VACUUM"
                            ++ [newline] ++ py "SQL: N/A")).
Proof.
  split.
  - apply (proj1 (error_panel_text
                    (recorder (reject_all (py "no such table: ghosts")))
                    (py "SELECT * FROM ghosts") None (py "") []
                    [EvConnect]
                    [EvConnect; EvExecute (py "SELECT * FROM ghosts") None]
                    [EvConnect; EvExecute (py "SELECT * FROM ghosts") None;
                     EvRollback]
                    eq_refl eq_refl) (py "no such table: ghosts"));
      reflexivity.
  - apply (proj2 (error_panel_text (recorder accept_all)
                    (py "VACUUM") None (py "") []
                    [EvConnect]
                    [EvConnect; EvExecute (py "VACUUM") None]
                    [EvConnect; EvExecute (py "VACUUM") None; EvCommit]
                    eq_refl eq_refl) no_rows (py "VACUUM")); reflexivity.
Defined.

Lemma mutation_kind_of_result (E : Engine) sql params answer (w : world E)
    a l t :
  fst (execute_query E sql params answer w) = mutation_result a l t ->
  str_in t mutation_kinds = true.
Proof.
  intros Hr.
  pose proof (execute_query_shapes E sql params answer w) as Hshape.
  cbv zeta in Hshape. rewrite Hr in Hshape.
  destruct Hshape as [H|[(rows & cols & H)|[(a' & l' & t' & Hk & H)
                     |[(t' & _ & H)|[(m & H)|(m & H)]]]]];
    try (apply (f_equal (fun r : Result => r !! "affected_rows")) in H;
         discriminate H).
  apply (f_equal (fun r : Result => r !! "query_type")) in H.
  change (Some (VStr t) = Some (VStr t')) in H. by injection H as ->.
Qed.

(** A committed mutation is shown as a success panel of three lines: the
    message naming the kind, the affected rows and the last inserted id,
    which reads None when the cursor holds none. *)
Theorem mutation_display (E : Engine) sql params answer (w : world E) a l t :
  fst (execute_query E sql params answer w) = mutation_result a l t ->
  display_results (fst (execute_query E sql params answer w))
  = Printed (SuccessPanel
               (t ++ py " operation completed successfully" ++ [newline]
                ++ py "Affected rows: " ++ decimal a ++ [newline]
                ++ py "Last inserted ID: "
                ++ match l with Some k => decimal k | None => py "None" end)).
Proof.
  intros Hr. pose proof (mutation_kind_of_result _ _ _ _ _ _ _ _ Hr) as Hk.
  rewrite Hr, display_mutation by done. by rewrite <- !app_assoc.
Qed.

Lemma mutation_display_witness :
  display_results
    (fst (execute_query (recorder accept_all) (py "create table t (a)") None
            (py "") []))
  = Printed (SuccessPanel
               (py "CREATE operation completed successfully" ++ [newline]
                ++ py "Affected rows: -1" ++ [newline]
                ++ py "Last inserted ID: None")).
Proof.
  apply (mutation_display (recorder accept_all) (py "create table t (a)")
           None (py "") [] (-1)%Z None (py "CREATE")).
  reflexivity.
Defined.

End DisplayFacts.

(** ** The program around the gateway *)

Module ProgramFacts.

Import ExecutionGateway GatewayProtocol Conversation DisplayFacts.

Section ProgramFacts.

Variable E : Engine.
Variable get_schema_info : world E -> str * world E.
Variables prefix suffix : str.

Let process := process_natural_language_query E get_schema_info prefix suffix.

Lemma display_modelled sql params answer (w : world E) :
  display_results (fst (execute_query E sql params answer w)) <> Unmodelled.
Proof.
  pose proof (execute_query_shapes E sql params answer w) as Hshape.
  cbv zeta in Hshape.
  destruct Hshape as [->|[(rows & cols & ->)|[(a & l & t & Hk & ->)
                     |[(t & _ & ->)|[(m & ->)|(m & ->)]]]]].
  - done.
  - rewrite display_select. destruct rows; [done|].
    by destruct (table_cells cols _).
  - by rewrite display_mutation.
  - by rewrite display_unsupported.
  - by rewrite display_database_error.
  - by rewrite display_unexpected_error.
Qed.

(** A dangerous statement has to be confirmed twice.  Declined at the first
    prompt, it never reaches [execute_query] and the question is not
    recorded.  Confirmed there and declined at the prompt of
    [execute_query], it is shown as cancelled, the engine is not called,
    yet the question is recorded.  Only when both answers confirm is the
    statement run. *)
Theorem dangerous_needs_two_confirmations net confirm answer user_input
    (app : App E) ch text :
  let sql := extract_sql (ch :: text) in
  let w1 := snd (get_schema_info (db app)) in
  net (translation_request E get_schema_info prefix suffix app user_input) = Responded 200 (Some (ch :: text)) ->
  fst (is_dangerous_query sql) = true ->
  (lower confirm <> py "yes" ->
   exists app',
     process net confirm answer user_input app = Some (QueryCancelled, app')
     /\ db app' = w1
     /\ session_queries app' = session_queries app)
  /\ (lower confirm = py "yes" ->
      str_in (lower answer) [py "yes"; py "y"] = false ->
      exists app',
        process net confirm answer user_input app
        = Some (Displayed cancelled_result CancelledNotice, app')
        /\ db app' = w1
        /\ session_queries app' = session_queries app ++ [user_input])
  /\ (lower confirm = py "yes" ->
      str_in (lower answer) [py "yes"; py "y"] = true ->
      exists handled app',
        process net confirm answer user_input app = Some (handled, app')
        /\ db app'
           = snd (with_connection E (run_statement E sql None) w1)).
Proof.
  intros sql w1 Hnet Hd. subst w1.
  unfold process, process_natural_language_query.
  unfold translation_request in Hnet.
  destruct (get_schema_info (db app)) as [info w1].
  cbn [fst snd] in *.
  unfold natural_language_to_sql, query_llm. rewrite Hnet.
  cbn [Z.eqb Pos.eqb]. fold sql.
  destruct (is_dangerous_query sql) as [d warning] eqn:Hv.
  cbn [fst] in Hd. subst d. cbn [andb].
  split; [|split].
  - intros Hno.
    destruct (str_eqb (lower confirm) (py "yes")) eqn:Hc.
    { by apply str_eqb_eq in Hc. }
    cbn [negb]. by eexists.
  - intros Hyes Hdecline.
    rewrite (proj2 (str_eqb_eq _ _) Hyes). cbn [negb].
    assert (execute_query E sql None answer w1 = (cancelled_result, w1)) as ->.
    { unfold execute_query. rewrite try_body_declined; [done|].
      unfold proceeds. by rewrite Hv, Hdecline. }
    rewrite display_cancelled. by eexists.
  - intros Hyes Hconfirm.
    rewrite (proj2 (str_eqb_eq _ _) Hyes). cbn [negb].
    pose proof (display_modelled sql None answer w1) as Hm.
    assert (Hx : snd (execute_query E sql None answer w1)
                 = snd (with_connection E (run_statement E sql None) w1)).
    { unfold execute_query. rewrite try_body_proceeds.
      - by destruct (with_connection E (run_statement E sql None) w1)
          as [[[m|m]|r] w2].
      - unfold proceeds. by rewrite Hconfirm, orb_true_r. }
    destruct (execute_query E sql None answer w1) as [r w2].
    cbn [fst snd] in *. rewrite <- Hx.
    destruct (display_results r); [by do 2 eexists..|done].
Qed.

(** Each question leaves one more turn in the history when the translation
    fails, and three when it answers: the schema, the prompt and the
    response.  That does not depend on whether the statement is then
    cancelled, run or rejected. *)
Theorem history_after_question net confirm answer user_input (app : App E)
    handled app' :
  process net confirm answer user_input app = Some (handled, app') ->
  (forall text,
     net (translation_request E get_schema_info prefix suffix app user_input) = Responded 200 (Some text) ->
     conversation_history (llm app')
     = conversation_history (llm app)
         ++ [schema_turn E get_schema_info app;
             user_turn (enhanced_prompt prefix suffix user_input);
             assistant_turn text])
  /\ ((forall text,
         net (translation_request E get_schema_info prefix suffix app user_input)
         <> Responded 200 (Some text)) ->
      handled = AiError (py "Failed to get response from AI")
      /\ conversation_history (llm app')
         = conversation_history (llm app) ++ [schema_turn E get_schema_info app]).
Proof.
  unfold process, process_natural_language_query, translation_request,
    schema_turn.
  destruct (get_schema_info (db app)) as [info w1]. cbn [fst].
  unfold natural_language_to_sql.
  set (llm1 := add_table_context (llm app) info).
  set (prompt := enhanced_prompt prefix suffix user_input).
  destruct (query_llm_cases net llm1 prompt true) as [Hq|(a & Hnet & Hq)];
    rewrite Hq.
  - intros [= <- <-]. split.
    + intros text Hnet. exfalso. revert Hq. unfold query_llm.
      rewrite Hnet. cbn. discriminate.
    + done.
  - intros Hout.
    assert (Hllm : conversation_history (llm app')
                   = conversation_history llm1
                       ++ [user_turn prompt; assistant_turn a]).
    { destruct a as [|ch text].
      - by injection Hout as <- <-.
      - destruct (is_dangerous_query (extract_sql (ch :: text))) as [d wn].
        destruct (d && negb (str_eqb (lower confirm) (py "yes"))).
        + by injection Hout as <- <-.
        + destruct (execute_query E (extract_sql (ch :: text)) None answer w1)
            as [r w2].
          destruct (display_results r); [| |done];
            by injection Hout as <- <-. }
    split.
    + intros text Hnet'. rewrite Hnet in Hnet'. injection Hnet' as <-.
      rewrite Hllm. unfold llm1. cbn. by rewrite <- app_assoc.
    + intros Hno. by destruct (Hno a).
Qed.





End ProgramFacts.

Section Statistics.

Variable E : Engine.

Lemma count_query_any_answer sql a1 a2 (w : world E) :
  fst (is_dangerous_query sql) = false ->
  count_query E sql a1 w = count_query E sql a2 w.
Proof.
  intros Hd. unfold count_query, execute_query.
  rewrite !try_body_proceeds; [done| |]; unfold proceeds; by rewrite Hd.
Qed.

(** The statistics command cannot be held up by the confirmation prompt:
    none of its four statements is assessed dangerous, so what is typed
    there plays no part in what it does. *)
Theorem statistics_never_prompt a1 a2 (w : world E) :
  display_stats E a1 w = display_stats E a2 w.
Proof.
  unfold display_stats. cbn [count_tables].
  rewrite (count_query_any_answer (count_statement (py "users")) a1 a2)
    by (vm_compute; reflexivity).
  destruct (count_query E (count_statement (py "users")) a2 w)
    as [[c1|] w1]; [|done].
  rewrite (count_query_any_answer (count_statement (py "products")) a1 a2)
    by (vm_compute; reflexivity).
  destruct (count_query E (count_statement (py "products")) a2 w1)
    as [[c2|] w2]; [|done].
  rewrite (count_query_any_answer (count_statement (py "orders")) a1 a2)
    by (vm_compute; reflexivity).
  destruct (count_query E (count_statement (py "orders")) a2 w2)
    as [[c3|] w3]; [|done].
  cbn [option_map].
  by rewrite (count_query_any_answer today_statement a1 a2)
    by (vm_compute; reflexivity).
Qed.

End Statistics.

Lemma dangerous_needs_two_confirmations_witness :
  (exists app',
     process_natural_language_query (recorder accept_all) demo_schema
       (py "Q: ") (py " A:") (answers 200 (Some (py "DROP TABLE users")))
       (py "no") (py "yes") (py "drop users") demo_app
     = Some (QueryCancelled, app')
     /\ db app' = []
     /\ session_queries app' = [py "earlier"])
  /\ (exists app',
        process_natural_language_query (recorder accept_all) demo_schema
          (py "Q: ") (py " A:") (answers 200 (Some (py "DROP TABLE users")))
          (py "yes") (py "no") (py "drop users") demo_app
        = Some (Displayed cancelled_result CancelledNotice, app')
        /\ db app' = []
        /\ session_queries app' = [py "earlier"; py "drop users"]).
Proof.
  pose (net := answers 200 (Some (py "DROP TABLE users"))).
  destruct (dangerous_needs_two_confirmations (recorder accept_all)
              demo_schema (py "Q: ") (py " A:") net (py "no") (py "yes")
              (py "drop users") demo_app "D"%char (py "ROP TABLE users")
              eq_refl eq_refl) as (H1 & _ & _).
  destruct (dangerous_needs_two_confirmations (recorder accept_all)
              demo_schema (py "Q: ") (py " A:") net (py "yes") (py "no")
              (py "drop users") demo_app "D"%char (py "ROP TABLE users")
              eq_refl eq_refl) as (_ & H2 & _).
  split.
  - apply H1. discriminate.
  - apply H2; reflexivity.
Defined.

Lemma history_after_question_witness :
  match process_natural_language_query (recorder accept_all) demo_schema
          (py "Q: ") (py " A:") (answers 200 (Some (py "SELECT 1")))
          (py "") (py "") (py "one") demo_app with
  | Some (_, app') =>
      conversation_history (llm app')
      = conversation_history demo_client
          ++ [schema_turn (recorder accept_all) demo_schema demo_app;
              user_turn (py "Q: one A:"); assistant_turn (py "SELECT 1")]
  | None => False
  end.
Proof.
  destruct (process_natural_language_query (recorder accept_all) demo_schema
              (py "Q: ") (py " A:") (answers 200 (Some (py "SELECT 1")))
              (py "") (py "") (py "one") demo_app)
    as [[handled app']|] eqn:H.
  - apply (proj1 (history_after_question (recorder accept_all) demo_schema
                    (py "Q: ") (py " A:") (answers 200 (Some (py "SELECT 1")))
                    (py "") (py "") (py "one") demo_app handled app' H)
             (py "SELECT 1")).
    reflexivity.
  - vm_compute in H. discriminate H.
Defined.



End ProgramFacts.
